(** * SaRLVision: the detection environment and its value estimators

    A shallow embedding of [Experiments/RL/env.py] (class [DetectionEnv])
    and of the estimators of [Experiments/RL/models.py] and
    [Experiments/RL/SaRLVision/models.py] ([DuelingDQN], [NoisyLinear],
    [NoisyDQN]).

    Conventions of the embedding.
    - Box coordinates, rewards, feature entries and the parameters of the
      noisy layers are rationals ([Q]), with the comparisons of the
      rationals.  The dueling network is over [float32], IEEE 754 binary32
      with its rounding to nearest, since what is stated about it depends on
      rounding.
    - Python ints that count ([step_count], [max_steps], [num_episodes],
      action indices) are [Z]; image dimensions and tensor shapes are [nat].
    - A method of [DetectionEnv] is a computation in a state-and-exception
      monad over the environment record: a raised exception aborts the
      method and keeps the assignments made before it.
    - [self.actions_history] is either the Python list of row references the
      constructor builds, with its heap of row objects, or a torch tensor
      (a matrix of rows), which is what [update_history] and [get_state]
      operate on. *)

From Stdlib Require Import ZArith QArith Lia Lqa Bool List.
From Stdlib Require Import Floats.SpecFloat.
From stdpp Require Import base list.
Import ListNotations.

Open Scope Z_scope.
Open Scope Q_scope.

(** ** Exceptions and results *)

Inductive exn : Type :=
| TypeError
| AttributeError
| IndexError
| RuntimeError.

Inductive result (A : Type) : Type :=
| Ok (a : A)
| Raise (e : exn).
Arguments Ok {A} a.
Arguments Raise {A} e.

Definition result_bind {A B} (r : result A) (k : A -> result B) : result B :=
  match r with
  | Ok a => k a
  | Raise e => Raise e
  end.

(** ** Numbers *)

Definition Qlt_bool (a b : Q) : bool := negb (Qle_bool b a).

(** Python's [max(a, b)] returns [b] when [b > a], else [a]; [min(a, b)]
    returns [b] when [b < a], else [a]. *)
Definition py_max (a b : Q) : Q := if Qlt_bool a b then b else a.
Definition py_min (a b : Q) : Q := if Qlt_bool b a then b else a.

Definition Qnat (n : nat) : Q := inject_Z (Z.of_nat n).

(** Python index normalisation of [seq[i]] for a sequence of length [len]:
    negative indices count from the end, anything else out of range raises
    [IndexError]. *)
Definition norm_index (len : nat) (i : Z) : result nat :=
  if ((0 <=? i) && (i <? Z.of_nat len))%Z then Ok (Z.to_nat i)
  else if ((- Z.of_nat len <=? i) && (i <? 0))%Z then Ok (Z.to_nat (i + Z.of_nat len))
  else Raise IndexError.

(** ** Bounding boxes *)

(** A box is the four-element list [[xmin, ymin, xmax, ymax]]. *)
Record BBox : Type := mkBBox {
  b_xmin : Q;
  b_ymin : Q;
  b_xmax : Q;
  b_ymax : Q
}.

(** [DetectionEnv.rewrap]: [min(max(0, coordinate), size)]. *)
Definition rewrap (coordinate size : Q) : Q :=
  py_min (py_max 0 coordinate) size.


(** ** Tensors and images *)

(** A torch tensor: its shape and its entries in row-major order. *)
Record Tensor : Type := mkTensor {
  tshape : list nat;
  tdata : list Q
}.

(** An image is an array of [img_height] rows and [img_width] columns
    ([image.shape[0]] and [image.shape[1]]). *)
Record Image : Type := mkImage {
  img_height : nat;
  img_width : nat;
  img_data : list Q
}.

(** [image.unsqueeze(0)]: a batch of one image. *)
Definition unsqueeze0 (image : Image) : list Image := [image].

(** [t.view(1, -1)]: one row holding every entry; the leading dimension 1
    lets torch infer [-1] also for a tensor without entries, whose view has
    shape [(1, 0)]. *)
Definition view_1_m1 (t : Tensor) : result Tensor :=
  Ok (mkTensor [1%nat; length (tdata t)] (tdata t)).

(** [torch.cat((a, b), 1)] of two tensors with a leading dimension 1. *)
Definition torch_cat1 (a b : Tensor) : result Tensor :=
  match tshape a, tshape b with
  | [1%nat; n], [1%nat; m] => Ok (mkTensor [1%nat; (n + m)%nat] (tdata a ++ tdata b))
  | _, _ => Raise RuntimeError
  end.

(** [torch.zeros(n)] and [v[i] = x] on a one-dimensional tensor. *)
Definition torch_zeros (n : nat) : list Q := replicate n 0.

Definition vec_setitem (v : list Q) (i : Z) (x : Q) : result (list Q) :=
  result_bind (norm_index (length v) i) (fun j => Ok (<[j := x]> v)).

(** ** The action history *)

(** Row objects of a Python list of lists live in a heap and are reached
    through references, so that two slots may hold the same row object. *)
Definition loc : Type := nat.

Inductive history : Type :=
| HList (outer : list loc) (heap : list (list Q))
| HTensor (rows : list (list Q)).

(** [[x] * n] on Python lists: [n] copies of the same references. *)
Definition py_list_mul {A} (l : list A) (n : nat) : list A :=
  concat (replicate n l).

(** Allocation of a fresh list object. *)
Definition heap_alloc (row : list Q) (heap : list (list Q)) : loc * list (list Q) :=
  (length heap, heap ++ [row]).

(** [self.actions_history = []; self.actions_history += [[100]*9]*20]:
    [[100]*9] is evaluated once, the outer list repeats the reference. *)
Definition sentinel_history : history :=
  let '(l, heap) := heap_alloc (py_list_mul [100] 9) [] in
  HList ([] ++ py_list_mul [l] 20) heap.

(** Contents of slot [i]: [h[i][:]]. *)
Definition hist_row (h : history) (i : nat) : result (list Q) :=
  match h with
  | HList outer heap =>
      match outer !! i with
      | Some l => match heap !! l with
                  | Some row => Ok row
                  | None => Raise IndexError
                  end
      | None => Raise IndexError
      end
  | HTensor rows =>
      match rows !! i with
      | Some row => Ok row
      | None => Raise IndexError
      end
  end.

(** [h[i][j] = v]: on a list of lists the row object that slot [i] refers to
    is mutated; on a tensor the entry [(i, j)] is written. *)
Definition hist_setitem2 (h : history) (i : nat) (j : Z) (v : Q) : result history :=
  match h with
  | HList outer heap =>
      match outer !! i with
      | Some l =>
          match heap !! l with
          | Some row =>
              result_bind (norm_index (length row) j) (fun j' =>
                Ok (HList outer (<[l := <[j' := v]> row]> heap)))
          | None => Raise IndexError
          end
      | None => Raise IndexError
      end
  | HTensor rows =>
      match rows !! i with
      | Some row =>
          result_bind (norm_index (length row) j) (fun j' =>
            Ok (HTensor (<[i := <[j' := v]> row]> rows)))
      | None => Raise IndexError
      end
  end.

(** [h[i][:] = src]: slice assignment replaces the contents of the row
    object of a list; a tensor row takes a source of its own width. *)
Definition hist_setrow (h : history) (i : nat) (src : list Q) : result history :=
  match h with
  | HList outer heap =>
      match outer !! i with
      | Some l =>
          match heap !! l with
          | Some _ => Ok (HList outer (<[l := src]> heap))
          | None => Raise IndexError
          end
      | None => Raise IndexError
      end
  | HTensor rows =>
      match rows !! i with
      | Some row =>
          if Nat.eqb (length src) (length row) then Ok (HTensor (<[i := src]> rows))
          else Raise RuntimeError
      | None => Raise IndexError
      end
  end.

Definition count_nonzero (rows : list (list Q)) : nat :=
  length (List.filter (fun x => negb (Qeq_bool x 0)) (concat rows)).

(** [len(torch.nonzero(h))]: the number of non-zero entries; torch accepts a
    tensor only. *)
Definition nonzero_len (h : history) : result nat :=
  match h with
  | HList _ _ => Raise TypeError
  | HTensor rows => Ok (count_nonzero rows)
  end.

(** [h.view(1, -1).type(dtype)]: a Python list has no [view]. *)
Definition hist_view_1_m1 (h : history) : result Tensor :=
  match h with
  | HList _ _ => Raise AttributeError
  | HTensor rows => view_1_m1 (mkTensor [length rows; length (hd [] rows)] (concat rows))
  end.

(** ** The environment object *)

Record DetectionEnv : Type := mkEnv {
  image : Image;
  original_image : Image;
  target_box : BBox;
  height : nat;
  width : nat;
  target_size : nat * nat;
  actions_history : history;
  num_episodes : Z;
  bbox : BBox;
  feature_extractor : list Image -> Tensor;
  transform : Image;
  action_space : nat;
  observation_space : nat;
  terminated : bool;
  truncated : bool;
  max_steps : Z;
  step_count : Z;
  alpha : Q;
  nu : Q;
  cumulative_reward : Q;
  threshold : Q
}.

(** A Python value handed to a reward function: the environment object
    itself or a box. *)
Inductive pyval : Type :=
| PEnv (self : DetectionEnv)
| PBox (b : BBox).

(** What the environment imports and this repository's sources do not
    define: torchvision's resizing pipeline behind [transform_input], and
    [iou] and [recall] of the [utils] module, applied to arbitrary Python
    values. *)
Class Externals : Type := {
  transform_input : Image -> nat * nat -> Image;
  iou : pyval -> pyval -> result Q;
  recall : pyval -> pyval -> result Q
}.

(** Field assignments. *)
Definition set_actions_history (h : history) (e : DetectionEnv) : DetectionEnv :=
  mkEnv (image e) (original_image e) (target_box e) (height e) (width e) (target_size e)
        h (num_episodes e) (bbox e) (feature_extractor e) (transform e)
        (action_space e) (observation_space e) (terminated e) (truncated e)
        (max_steps e) (step_count e) (alpha e) (nu e) (cumulative_reward e) (threshold e).

Definition set_num_episodes (n : Z) (e : DetectionEnv) : DetectionEnv :=
  mkEnv (image e) (original_image e) (target_box e) (height e) (width e) (target_size e)
        (actions_history e) n (bbox e) (feature_extractor e) (transform e)
        (action_space e) (observation_space e) (terminated e) (truncated e)
        (max_steps e) (step_count e) (alpha e) (nu e) (cumulative_reward e) (threshold e).

Definition set_bbox (b : BBox) (e : DetectionEnv) : DetectionEnv :=
  mkEnv (image e) (original_image e) (target_box e) (height e) (width e) (target_size e)
        (actions_history e) (num_episodes e) b (feature_extractor e) (transform e)
        (action_space e) (observation_space e) (terminated e) (truncated e)
        (max_steps e) (step_count e) (alpha e) (nu e) (cumulative_reward e) (threshold e).

Definition set_terminated (t : bool) (e : DetectionEnv) : DetectionEnv :=
  mkEnv (image e) (original_image e) (target_box e) (height e) (width e) (target_size e)
        (actions_history e) (num_episodes e) (bbox e) (feature_extractor e) (transform e)
        (action_space e) (observation_space e) t (truncated e)
        (max_steps e) (step_count e) (alpha e) (nu e) (cumulative_reward e) (threshold e).

Definition set_truncated (t : bool) (e : DetectionEnv) : DetectionEnv :=
  mkEnv (image e) (original_image e) (target_box e) (height e) (width e) (target_size e)
        (actions_history e) (num_episodes e) (bbox e) (feature_extractor e) (transform e)
        (action_space e) (observation_space e) (terminated e) t
        (max_steps e) (step_count e) (alpha e) (nu e) (cumulative_reward e) (threshold e).

Definition set_step_count (n : Z) (e : DetectionEnv) : DetectionEnv :=
  mkEnv (image e) (original_image e) (target_box e) (height e) (width e) (target_size e)
        (actions_history e) (num_episodes e) (bbox e) (feature_extractor e) (transform e)
        (action_space e) (observation_space e) (terminated e) (truncated e)
        (max_steps e) n (alpha e) (nu e) (cumulative_reward e) (threshold e).

Definition set_cumulative_reward (r : Q) (e : DetectionEnv) : DetectionEnv :=
  mkEnv (image e) (original_image e) (target_box e) (height e) (width e) (target_size e)
        (actions_history e) (num_episodes e) (bbox e) (feature_extractor e) (transform e)
        (action_space e) (observation_space e) (terminated e) (truncated e)
        (max_steps e) (step_count e) (alpha e) (nu e) r (threshold e).

(** ** Methods as computations over the object *)

Definition M (A : Type) : Type := DetectionEnv -> result A * DetectionEnv.

#[global] Instance M_ret : MRet M := fun A a self => (Ok a, self).

#[global] Instance M_bind : MBind M := fun A B k m self =>
  match m self with
  | (Ok a, self') => k a self'
  | (Raise x, self') => (Raise x, self')
  end.

Definition get_self : M DetectionEnv := fun self => (Ok self, self).
Definition assign (f : DetectionEnv -> DetectionEnv) : M unit := fun self => (Ok tt, f self).
Definition lift {A} (r : result A) : M A := fun self => (r, self).

(** A [for] loop over an explicit range. *)
Fixpoint for_each {A} (l : list A) (body : A -> M unit) : M unit :=
  match l with
  | [] => mret tt
  | x :: l' => body x ≫= fun _ => for_each l' body
  end.

(** The [info] dictionary of [get_info]. *)
Record Info : Type := mkInfo {
  info_target_box : BBox;
  info_height : nat;
  info_width : nat;
  info_target_size : nat * nat;
  info_max_steps : Z;
  info_step_count : Z;
  info_alpha : Q;
  info_nu : Q;
  info_cumulative_reward : Q;
  info_threshold : Q;
  info_actions_history : history;
  info_num_episodes : Z;
  info_bbox : BBox;
  info_feature_extractor : list Image -> Tensor;
  info_transform : Image;
  info_iou : Q;
  info_recall : Q
}.

(** The tuple returned by [step]. *)
Record StepReturn : Type := mkStepReturn {
  ret_state : Tensor;
  ret_reward : Q;
  ret_terminated : bool;
  ret_truncated : bool;
  ret_info : Info
}.

Section Env.
Context `{Externals}.

(** [calculate_reward(current_state, previous_state, target_box,
    reward_function=iou)]: the definition has no [self] parameter. *)
Definition calculate_reward (reward_function : pyval -> pyval -> result Q)
    (current_state previous_state target_box : pyval) : result Q :=
  result_bind (reward_function current_state target_box) (fun iou_current =>
  result_bind (reward_function previous_state target_box) (fun iou_previous =>
  let reward := iou_current - iou_previous in
  if Qle_bool reward 0 then Ok (-1) else Ok 1)).

(** [calculate_trigger_reward(self, current_state, target_box,
    reward_function=iou)]. *)
Definition calculate_trigger_reward (reward_function : pyval -> pyval -> result Q)
    (self : DetectionEnv) (current_state target_box : pyval) : result Q :=
  result_bind (reward_function current_state target_box) (fun iou_current =>
  let reward := iou_current in
  if Qle_bool (threshold self) reward then Ok (nu self) else Ok (-1 * nu self)).

(** [get_features(self, image)]. *)
Definition features_of (extractor : list Image -> Tensor) (size : nat * nat)
    (image : Image) : Tensor :=
  let image := transform_input image size in
  extractor (unsqueeze0 image).

Definition get_features (image : Image) : M Tensor :=
  self ← get_self;
  mret (features_of (feature_extractor self) (target_size self) image).

(** [get_state(self)]. *)
Definition get_state : M Tensor :=
  self ← get_self;
  let image := transform_input (image self) (target_size self) in
  features ← get_features image;
  features ← lift (view_1_m1 features);
  self ← get_self;
  action_history ← lift (hist_view_1_m1 (actions_history self));
  lift (torch_cat1 features action_history).

(** [update_history(self, action)]. *)
Definition update_history (action : Z) : M history :=
  action_vector ← lift (vec_setitem (torch_zeros 9) action 1);
  self ← get_self;
  size_history_vector ← lift (nonzero_len (actions_history self));
  (if (size_history_vector <? 9)%nat then
     self ← get_self;
     h ← lift (hist_setitem2 (actions_history self) size_history_vector action 1);
     assign (set_actions_history h)
   else
     for_each [8; 7; 6; 5; 4; 3; 2; 1]%nat (fun i =>
       self ← get_self;
       src ← lift (hist_row (actions_history self) (i - 1));
       h ← lift (hist_setrow (actions_history self) i src);
       assign (set_actions_history h)) ≫= fun _ =>
     self ← get_self;
     h ← lift (hist_setrow (actions_history self) 0 action_vector);
     assign (set_actions_history h)) ≫= fun _ =>
  self ← get_self;
  mret (actions_history self).

(** [transform_action(self, action)]. *)
Definition transform_action (self : DetectionEnv) (action : Z) : BBox :=
  let bbox := bbox self in
  let '(xmin, xmax, ymin, ymax) := (b_xmin bbox, b_xmax bbox, b_ymin bbox, b_ymax bbox) in
  let alpha_h := alpha self * (ymax - ymin) in
  let alpha_w := alpha self * (xmax - xmin) in
  let '(xmin, xmax, ymin, ymax) :=
    if (action =? 0)%Z then (xmin + alpha_w, xmax + alpha_w, ymin, ymax)
    else if (action =? 1)%Z then (xmin - alpha_w, xmax - alpha_w, ymin, ymax)
    else if (action =? 2)%Z then (xmin, xmax, ymin - alpha_h, ymax - alpha_h)
    else if (action =? 3)%Z then (xmin, xmax, ymin + alpha_h, ymax + alpha_h)
    else if (action =? 4)%Z then (xmin - alpha_w, xmax + alpha_w, ymin - alpha_h, ymax + alpha_h)
    else if (action =? 5)%Z then (xmin + alpha_w, xmax - alpha_w, ymin + alpha_h, ymax - alpha_h)
    else if (action =? 6)%Z then (xmin, xmax, ymin + alpha_h, ymax - alpha_h)
    else if (action =? 7)%Z then (xmin + alpha_w, xmax - alpha_w, ymin, ymax)
    else (xmin, xmax, ymin, ymax) in
  mkBBox (rewrap xmin (Qnat (width self))) (rewrap ymin (Qnat (height self)))
         (rewrap xmax (Qnat (width self))) (rewrap ymax (Qnat (height self))).

(** [get_info(self)]. *)
Definition get_info : M Info :=
  self ← get_self;
  iou_value ← lift (iou (PBox (bbox self)) (PBox (target_box self)));
  recall_value ← lift (recall (PBox (bbox self)) (PBox (target_box self)));
  mret (mkInfo (target_box self) (height self) (width self) (target_size self)
               (max_steps self) (step_count self) (alpha self) (nu self)
               (cumulative_reward self) (threshold self) (actions_history self)
               (num_episodes self) (bbox self) (feature_extractor self)
               (transform self) iou_value recall_value).

(** [__init__]: the constructor raises when the feature tensor has no
    dimension to index by [.shape[0]]. *)
Definition DetectionEnv_init (image original_image : Image) (target_box : BBox)
    (max_steps : Z) (alpha nu threshold : Q)
    (feature_extractor : list Image -> Tensor) (target_size : nat * nat)
    : result DetectionEnv :=
  let height := img_height image in
  let width := img_width image in
  let actions_history := sentinel_history in
  let num_episodes := 0%Z in
  let bbox := mkBBox 0 0 (Qnat width) (Qnat height) in
  let transform := transform_input image target_size in
  let action_space := 9%nat in
  match tshape (features_of feature_extractor target_size image) with
  | [] => Raise IndexError
  | feature_len :: _ =>
      let history_len :=
        match actions_history with
        | HList outer _ => length outer
        | HTensor rows => length rows
        end in
      Ok (mkEnv image original_image target_box height width target_size
                actions_history num_episodes bbox feature_extractor transform
                action_space (feature_len + history_len)%nat
                false false max_steps 0%Z alpha nu 0 threshold)
  end.

(** [reset]: the assignments, then [return self.get_state()]. *)
Definition reset (image original_image : Image) (target_box : BBox)
    (max_steps : Z) (alpha nu threshold : Q)
    (feature_extractor : list Image -> Tensor) (target_size : nat * nat)
    : M Tensor :=
  assign (fun self =>
    let height := img_height image in
    let width := img_width image in
    mkEnv image original_image target_box height width target_size
          sentinel_history 0%Z (mkBBox 0 0 (Qnat width) (Qnat height))
          feature_extractor (transform_input image target_size)
          (action_space self) (observation_space self)
          (terminated self) false
          max_steps 0%Z alpha nu 0 threshold) ≫= fun _ =>
  get_state.

(** [step(self, action)]. *)
Definition step (action : Z) : M StepReturn :=
  _ ← update_history action;
  reward ← (if (action <? 8)%Z then
              self ← get_self;
              _ ← assign (set_bbox (transform_action self action));
              self ← get_self;
              lift (calculate_reward iou (PEnv self) (PBox (bbox self)) (PBox (target_box self)))
            else
              self ← get_self;
              reward ← lift (calculate_trigger_reward iou self (PBox (bbox self)) (PBox (target_box self)));
              _ ← assign (set_terminated true);
              mret reward);
  _ ← assign (fun self => set_cumulative_reward (cumulative_reward self + reward) self);
  _ ← assign (fun self => set_step_count (step_count self + 1)%Z self);
  self ← get_self;
  _ ← (if negb (terminated self) || negb (truncated self) then
         _ ← assign (fun self => set_terminated (max_steps self <=? step_count self)%Z self);
         assign (fun self => set_truncated (max_steps self <=? step_count self)%Z self)
       else mret tt);
  self ← get_self;
  _ ← (if terminated self || truncated self then
         assign (fun self => set_num_episodes (num_episodes self + 1)%Z self)
       else mret tt);
  state ← get_state;
  self ← get_self;
  info ← get_info;
  mret (mkStepReturn state reward (terminated self) (truncated self) info).

End Env.

(** ** States of an environment *)

(** Every coordinate of the current box lies within the image. *)
Definition bbox_in_bounds (self : DetectionEnv) : Prop :=
  (0 <= b_xmin (bbox self) <= Qnat (width self)) /\
  (0 <= b_ymin (bbox self) <= Qnat (height self)) /\
  (0 <= b_xmax (bbox self) <= Qnat (width self)) /\
  (0 <= b_ymax (bbox self) <= Qnat (height self)).

(** The states an environment goes through: it is constructed, reset and
    stepped, whether the call returns or raises, and its caller may replace
    the history (the attribute is public, and [update_history] and
    [get_state] need a tensor there). *)
Inductive reachable `{Externals} : DetectionEnv -> Prop :=
| reach_init image original_image target_box max_steps alpha nu threshold extractor size self :
    DetectionEnv_init image original_image target_box max_steps alpha nu threshold
                      extractor size = Ok self ->
    reachable self
| reach_reset image original_image target_box max_steps alpha nu threshold extractor size self :
    reachable self ->
    reachable (snd (reset image original_image target_box max_steps alpha nu threshold
                          extractor size self))
| reach_step action self :
    reachable self ->
    reachable (snd (step action self))
| reach_history h self :
    reachable self ->
    reachable (set_actions_history h self).

(** ** Pushes on a tensor history *)

Definition sentinel_row : list Q := replicate 9 100.

(** The row [action_vector] of an action between 0 and 8. *)
Definition one_hot (action : Z) : list Q :=
  <[Z.to_nat action := 1]> (torch_zeros 9).

(** The rows after a shift: the new row in front of the first eight, the
    rows from the tenth on as they were. *)
Definition shift_push (v : list Q) (rows : list (list Q)) : list (list Q) :=
  v :: take 8 rows ++ drop 9 rows.

(** [update_history] called for each action in turn. *)
Definition push_all (actions : list Z) : M unit :=
  for_each actions (fun action => update_history action ≫= fun _ => mret tt).

(** Nine rows at most of the actions pushed, the most recent first, above
    the sentinel rows. *)
Definition pushed_rows (actions : list Z) : list (list Q) :=
  take 9 (map one_hot (rev actions) ++ replicate 9 sentinel_row)
  ++ replicate 11 sentinel_row.

(** The outcome of a method from a state, read as a predicate on the result
    and the state it leaves. *)
Definition wp {A} (m : M A) (Q : result A -> DetectionEnv -> Prop)
    (self : DetectionEnv) : Prop :=
  Q (fst (m self)) (snd (m self)).

(** ** The reward model of the specification *)

Definition box_area (b : BBox) : Q :=
  (b_xmax b - b_xmin b) * (b_ymax b - b_ymin b).

Definition intersection_area (a b : BBox) : Q :=
  let w := py_max 0 (py_min (b_xmax a) (b_xmax b) - py_max (b_xmin a) (b_xmin b)) in
  let h := py_max 0 (py_min (b_ymax a) (b_ymax b) - py_max (b_ymin a) (b_ymin b)) in
  w * h.

(** Modelled from the spec: [utils.iou] is imported by [env.py] and is not
    among the sources. The specification has it as the intersection area
    over the union area of two axis-aligned boxes, and 0 when the union area
    is 0. *)
Definition iou_spec (a b : BBox) : Q :=
  let inter := intersection_area a b in
  let union := box_area a + box_area b - inter in
  if Qeq_bool union 0 then 0 else inter / union.

(** The same function at Python values: a box is required on both sides, an
    environment object is neither indexable nor iterable. *)
Definition iou_py (a b : pyval) : result Q :=
  match a, b with
  | PBox a, PBox b => Ok (iou_spec a b)
  | _, _ => Raise TypeError
  end.

(** [step_reward(new_bbox, old_bbox, target)] in the words of the
    specification: the sign of the IoU gain of the new box over the old one,
    a zero gain counting as [-1]. *)
Definition step_reward_spec (new_bbox old_bbox target : BBox) : Q :=
  if Qlt_bool 0 (iou_spec new_bbox target - iou_spec old_bbox target) then 1 else -1.

(** ** An instance of the imports, to run the methods *)

(** [utils.recall] is not among the sources either and the specification
    leaves it undefined; the runs take the intersection area over the area of
    the target. Only the [info] dictionary echoes it. *)
Definition recall_py (a b : pyval) : result Q :=
  match a, b with
  | PBox a, PBox b =>
      Ok (if Qeq_bool (box_area b) 0 then 0 else intersection_area a b / box_area b)
  | _, _ => Raise TypeError
  end.

Definition resize (image : Image) (size : nat * nat) : Image :=
  mkImage (fst size) (snd size) (img_data image).

Definition run_externals : Externals :=
  {| transform_input := resize; iou := iou_py; recall := recall_py |}.

(** The shape of the output of [VGG16FeatureExtractor] of
    [Experiments/RL/models.py]: 512 channels pooled to 2 by 2 and flattened
    from dimension 1, for each image of the batch. *)
Definition vgg16_features (batch : list Image) : Tensor :=
  mkTensor [length batch; 2048%nat] (replicate (length batch * 2048) 0).

(** The sentinel history as a tensor of 20 rows of 9 entries. *)
Definition sentinel_tensor : history :=
  HTensor (replicate 20 (replicate 9 100)).

(** The rows that actions 3 and 5 write. *)
Definition one_hot_3 : list Q := [0; 0; 0; 1; 0; 0; 0; 0; 0].
Definition one_hot_5 : list Q := [0; 0; 0; 0; 0; 1; 0; 0; 0].

Definition image_100 : Image := mkImage 100 100 [].

Definition full_box : BBox := mkBBox 0 0 100 100.
Definition inner_box : BBox := mkBBox 10 10 90 90.

(** An environment on a 100 by 100 image with the default [alpha=0.2],
    [nu=3.0] and [threshold=0.5], whose history is a tensor, holding box [b]
    and looking for [target]. *)
Definition env_with (max_steps : Z) (b target : BBox) : DetectionEnv :=
  mkEnv image_100 image_100 target 100 100 (224, 224)%nat
        sentinel_tensor 0%Z b vgg16_features (resize image_100 (224, 224)%nat)
        9 21 false false max_steps 0%Z (2 # 10) 3 0 (5 # 10).

(** The environment as the constructor leaves it, with the default
    [max_steps=500]. *)
Definition env_constructed : result DetectionEnv :=
  @DetectionEnv_init run_externals image_100 image_100 full_box 500%Z
                     (2 # 10) 3 (5 # 10) vgg16_features (224, 224)%nat.

Definition env_new : DetectionEnv :=
  mkEnv image_100 image_100 full_box 100 100 (224, 224)%nat
        sentinel_history 0%Z full_box vgg16_features (resize image_100 (224, 224)%nat)
        9 21 false false 500%Z 0%Z (2 # 10) 3 0 (5 # 10).

(** An environment with [max_steps=1] after one trigger: the step limit ends
    the episode. *)
Definition env_after_trigger : DetectionEnv :=
  snd (@step run_externals 8 (env_with 1 full_box full_box)).

(** [reset] with the arguments of [env_constructed]. *)
Definition reset_100 : M Tensor :=
  @reset run_externals image_100 image_100 full_box 500%Z (2 # 10) 3 (5 # 10)
         vgg16_features (224, 224)%nat.

(** ** The value estimators *)

Module Models.

Definition vec : Type := list Q.

Definition vsum (v : vec) : Q := fold_right Qplus 0 v.

Definition dot (x w : vec) : Q := vsum (zip_with Qmult x w).

(** [F.linear(x, W, b)]: one output per row of [W]. *)
Definition F_linear (x : vec) (W : list vec) (b : vec) : vec :=
  zip_with (fun row bi => dot x row + bi) W b.

(** What torch supplies and the rationals cannot define: the hyperbolic
    tangent, and a generator from which [torch.normal(mean, std)] draws one
    entry at a time. *)
Class Torch : Type := {
  tanh : Q -> Q;
  rng : Type;
  normal : Q -> Q -> rng -> Q * rng
}.

(** The mean of the entries of a vector of rationals, without rounding. *)
Definition mean (v : vec) : Q := vsum v / Qnat (length v).

Section Estimators.
Context `{Torch}.

(** [NoisyLinear]. *)
Record NoisyLinear : Type := mkNoisyLinear {
  w_mu : list vec;
  w_sigma : list vec;
  b_mu : vec;
  b_sigma : vec;
  training : bool
}.

(** [torch.normal(mean, std, size=t.size())] for a vector and a matrix [t]. *)
Fixpoint normal_like (mean std : Q) (t : vec) (g : rng) : vec * rng :=
  match t with
  | [] => ([], g)
  | _ :: t' =>
      let '(x, g) := normal mean std g in
      let '(xs, g) := normal_like mean std t' g in
      (x :: xs, g)
  end.

Fixpoint normal_like_rows (mean std : Q) (t : list vec) (g : rng) : list vec * rng :=
  match t with
  | [] => ([], g)
  | row :: t' =>
      let '(r, g) := normal_like mean std row g in
      let '(rs, g) := normal_like_rows mean std t' g in
      (r :: rs, g)
  end.

(** [NoisyLinear.forward(x, sigma)]. *)
Definition NoisyLinear_forward (l : NoisyLinear) (x : vec) (sigma : Q) (g : rng) : vec * rng :=
  if training l then
    let '(w_noise, g) := normal_like_rows 0 sigma (w_mu l) g in
    let '(b_noise, g) := normal_like 0 sigma (b_mu l) g in
    (F_linear x
       (zip_with (zip_with Qplus) (w_mu l) (zip_with (zip_with Qmult) (w_sigma l) w_noise))
       (zip_with Qplus (b_mu l) (zip_with Qmult (b_sigma l) b_noise)), g)
  else
    (F_linear x (w_mu l) (b_mu l), g).

(** [NoisyDQN]. *)
Record NoisyDQN : Type := mkNoisyDQN {
  a1 : NoisyLinear;
  a2 : NoisyLinear
}.

(** [NoisyDQN.forward]: both layers are called with the default
    [sigma=0.1]. *)
Definition NoisyDQN_forward (net : NoisyDQN) (X : vec) (g : rng) : vec * rng :=
  let '(o, g) := NoisyLinear_forward (a1 net) X (1 # 10) g in
  let o := map tanh o in
  NoisyLinear_forward (a2 net) o (1 # 10) g.

(** [nn.Module.train(mode)] sets the [training] flag of a module and of its
    submodules; [eval()] is [train(False)]. *)
Definition NoisyLinear_train (mode : bool) (l : NoisyLinear) : NoisyLinear :=
  mkNoisyLinear (w_mu l) (w_sigma l) (b_mu l) (b_sigma l) mode.

Definition NoisyDQN_train (mode : bool) (net : NoisyDQN) : NoisyDQN :=
  mkNoisyDQN (NoisyLinear_train mode (a1 net)) (NoisyLinear_train mode (a2 net)).

Definition NoisyDQN_eval (net : NoisyDQN) : NoisyDQN := NoisyDQN_train false net.

End Estimators.

(** A generator that replays a stream of samples, and a piecewise stand-in
    for the hyperbolic tangent, to run the estimators. *)
Definition run_torch : Torch :=
  {| tanh := fun x => py_max (-1) (py_min 1 x);
     rng := list Q;
     normal := fun mean std g =>
       match g with
       | [] => (mean, [])
       | z :: g' => (mean + std * z, g')
       end |}.

(** *** Single precision *)

(** The entries of a tensor of torch's default dtype, [torch.float32]: IEEE
    754 binary32, with 24 bits of precision and the exponent of the
    infinities at 128.  The elementwise [+], [-], [*] and [/] of two tensors
    round each result to the nearest number of the format, ties to even. *)
Definition float32 : Type := spec_float.

Definition f32_add : float32 -> float32 -> float32 := SFadd 24 128.
Definition f32_sub : float32 -> float32 -> float32 := SFsub 24 128.
Definition f32_mul : float32 -> float32 -> float32 := SFmul 24 128.
Definition f32_div : float32 -> float32 -> float32 := SFdiv 24 128.

Definition f32_zero : float32 := S754_zero false.

(** [torch.tensor(z, dtype=torch.float32)] for an integer [z]. *)
Definition f32_of_Z (z : Z) : float32 := binary_normalize 24 128 z 0 false.

Definition is_finite (x : float32) : bool :=
  match x with
  | S754_zero _ | S754_finite _ _ _ => true
  | S754_infinity _ | S754_nan => false
  end.

(** The rational that a finite number of the format stands for. *)
Definition F2Q (x : float32) : Q :=
  match x with
  | S754_finite s m e =>
      let z := if s then Z.neg m else Z.pos m in
      match e with
      | Z0 => inject_Z z
      | Zpos p => inject_Z (z * 2 ^ Z.pos p)
      | Zneg p => z # (2 ^ p)
      end
  | _ => 0
  end.

(** [x] is finite and stands for [q]: where [x] is the result of an
    operation and [q] the same operation on rationals, the operation has not
    rounded. *)
Definition exactly (x : float32) (q : Q) : Prop :=
  is_finite x = true /\ F2Q x == q.

(** What torch computes in kernels of its own on [float32] tensors:
    [F.linear], the two activation functions and the mean of the entries of
    a vector.  The order in which a kernel accumulates its sums is not
    fixed by the program. *)
Class Torch32 : Type := {
  F_linear32 : list float32 -> list (list float32) -> list float32 -> list float32;
  relu32 : float32 -> float32;
  tanh32 : float32 -> float32;
  mean32 : list float32 -> float32
}.

(** [nn.Linear]. *)
Record Linear : Type := mkLinear {
  weight : list (list float32);
  bias : list float32
}.

Inductive Layer : Type :=
| LLinear (l : Linear)
| LReLU
| LTanh.

(** Elementwise operations broadcast a one-entry operand. *)
Definition broadcast2 {A} (f : A -> A -> A) (a b : list A) : list A :=
  match a, b with
  | [x], _ => map (f x) b
  | _, [y] => map (fun x => f x y) a
  | _, _ => zip_with f a b
  end.

Section Dueling.
Context `{Torch32}.

Definition Linear_forward (l : Linear) (x : list float32) : list float32 :=
  F_linear32 x (weight l) (bias l).

Definition Layer_forward (l : Layer) (x : list float32) : list float32 :=
  match l with
  | LLinear l => Linear_forward l x
  | LReLU => map relu32 x
  | LTanh => map tanh32 x
  end.

(** [nn.Sequential]. *)
Definition Sequential_forward (layers : list Layer) (x : list float32) : list float32 :=
  fold_left (fun x l => Layer_forward l x) layers x.

(** [v.mean(dim=-1, keepdim=True)] keeps a vector of one entry. *)
Definition mean_keepdim (v : list float32) : list float32 := [mean32 v].

(** [DuelingDQN]: the shared stack ([net] in [Experiments/RL/models.py],
    [shared_layers] in [SaRLVision/models.py]) and the two heads. *)
Record DuelingDQN : Type := mkDuelingDQN {
  shared_layers : list Layer;
  valfunc : Linear;
  advfunc : Linear
}.

(** The stack of [Experiments/RL/models.py]. *)
Definition DuelingDQN_RL (l1 l2 valfunc advfunc : Linear) : DuelingDQN :=
  mkDuelingDQN [LLinear l1; LTanh; LLinear l2] valfunc advfunc.

(** The stack of [Experiments/RL/SaRLVision/models.py]. *)
Definition DuelingDQN_SaRLVision (l1 l2 l3 l4 valfunc advfunc : Linear) : DuelingDQN :=
  mkDuelingDQN [LLinear l1; LReLU; LLinear l2; LReLU; LLinear l3; LReLU; LLinear l4; LReLU]
               valfunc advfunc.

Definition DuelingDQN_value (net : DuelingDQN) (X : list float32) : list float32 :=
  Linear_forward (valfunc net) (Sequential_forward (shared_layers net) X).

Definition DuelingDQN_adv (net : DuelingDQN) (X : list float32) : list float32 :=
  Linear_forward (advfunc net) (Sequential_forward (shared_layers net) X).

(** [DuelingDQN.forward]: [value + adv - adv.mean(dim=-1, keepdim=True)],
    the sum first and then the difference, entry by entry. *)
Definition DuelingDQN_forward (net : DuelingDQN) (X : list float32) : list float32 :=
  let o := Sequential_forward (shared_layers net) X in
  let value := Linear_forward (valfunc net) o in
  let adv := Linear_forward (advfunc net) o in
  broadcast2 f32_sub (broadcast2 f32_add value adv) (mean_keepdim adv).

End Dueling.

(** Kernels to run the dueling network: sums accumulated from left to
    right, the mean as the sum over the count, [ReLU] as [x if x > 0 else 0],
    and a piecewise stand-in for the hyperbolic tangent, which the stack of
    [SaRLVision/models.py] does not contain. *)
Definition sum32 (v : list float32) : float32 := fold_left f32_add v f32_zero.

Definition run_torch32 : Torch32 :=
  {| F_linear32 := fun x W b =>
       zip_with (fun row bi => f32_add (sum32 (zip_with f32_mul x row)) bi) W b;
     relu32 := fun x =>
       match x with
       | S754_nan => S754_nan
       | _ => if SFltb f32_zero x then x else f32_zero
       end;
     tanh32 := fun x =>
       if SFltb x (f32_of_Z (-1)) then f32_of_Z (-1)
       else if SFltb (f32_of_Z 1) x then f32_of_Z 1 else x;
     mean32 := fun v => f32_div (sum32 v) (f32_of_Z (Z.of_nat (length v))) |}.

(** [nn.Linear(n_in, n_out)] with every weight and every bias at zero. *)
Definition zero_linear (n_in n_out : nat) : Linear :=
  mkLinear (replicate n_out (replicate n_in f32_zero)) (replicate n_out f32_zero).

(** [DuelingDQN(ninputs, 9)] of [SaRLVision/models.py], with its widths
    1024, 512, 256 and 128, where every weight and every bias of the shared
    stack is zero, the bias of the value head is [v] and the biases of the
    advantage head are [adv]: the value is [v] and the advantages are [adv]
    on every input. *)
Definition bias_only_dueling (ninputs : nat) (v : float32) (adv : list float32)
    : DuelingDQN :=
  DuelingDQN_SaRLVision
    (zero_linear ninputs 1024) (zero_linear 1024 512)
    (zero_linear 512 256) (zero_linear 256 128)
    (mkLinear (replicate 1 (replicate 128 f32_zero)) [v])
    (mkLinear (replicate (length adv) (replicate 128 f32_zero)) adv).

(** Value 3 and advantages [9, 0, ..., 0]: no operation of [forward]
    rounds. *)
Definition exact_dueling : DuelingDQN :=
  bias_only_dueling 2 (f32_of_Z 3) (map f32_of_Z [9; 0; 0; 0; 0; 0; 0; 0; 0]%Z).

(** Value [2^24] and advantages [1, -1, 0, ..., 0]: [2^24 + 1] is not a
    number of the format. *)
Definition rounding_dueling : DuelingDQN :=
  bias_only_dueling 2 (f32_of_Z 16777216) (map f32_of_Z [1; -1; 0; 0; 0; 0; 0; 0; 0]%Z).

Definition observation_12 : list float32 := [f32_of_Z 1; f32_of_Z 2].

End Models.

(** ** What a call leaves in place *)

(** The [info] dictionary echoes the state it is taken from. *)
Definition info_echoes (i : Info) (self : DetectionEnv) : Prop :=
  info_target_box i = target_box self /\ info_max_steps i = max_steps self /\
  info_step_count i = step_count self /\
  info_cumulative_reward i = cumulative_reward self /\
  info_actions_history i = actions_history self /\
  info_num_episodes i = num_episodes self /\ info_bbox i = bbox self.

(** The image, the target and the configuration of two states agree. *)
Definition same_config (self self' : DetectionEnv) : Prop :=
  image self' = image self /\ target_box self' = target_box self /\
  height self' = height self /\ width self' = width self /\
  target_size self' = target_size self /\
  feature_extractor self' = feature_extractor self /\
  observation_space self' = observation_space self /\
  max_steps self' = max_steps self /\ alpha self' = alpha self /\
  nu self' = nu self /\ threshold self' = threshold self.

(** The value both flags take in a call of [step] that returns: they were
    both set already (the trigger standing for [terminated]), or the step
    limit is reached. *)
Definition step_flag (action : Z) (self : DetectionEnv) : bool :=
  ((if (action <? 8)%Z then terminated self else true) && truncated self)
  || (max_steps self <=? step_count self + 1)%Z.

(** ** Further inputs *)

(** A tensor history of [n] rows of nine zeros. *)
Definition zero_rows (n : nat) : list (list Q) := replicate n (torch_zeros 9).

(** The constructed environment with a history of 20 rows of zeros. *)
Definition env_zero : DetectionEnv :=
  set_actions_history (HTensor (zero_rows 20)) env_new.

Module ModelExtras.
Import Models.

(** Two vectors with equal entries. *)
Definition Qvec_eq (a b : vec) : Prop := Forall2 Qeq a b.

End ModelExtras.

(** * Properties *)

(** ** Comparisons and the clamp *)

Lemma Qlt_bool_true a b : Qlt_bool a b = true <-> a < b.
Proof.
  unfold Qlt_bool. rewrite negb_true_iff.
  split; intros Hab.
  - apply Qnot_le_lt. intros Hle. apply Qle_bool_iff in Hle. congruence.
  - destruct (Qle_bool b a) eqn:E; [|reflexivity].
    apply Qle_bool_iff in E. exfalso. apply (Qlt_not_le _ _ Hab E).
Qed.

Lemma Qlt_bool_false a b : Qlt_bool a b = false <-> b <= a.
Proof.
  unfold Qlt_bool. rewrite negb_false_iff. apply Qle_bool_iff.
Qed.

Lemma Qnat_nonneg n : 0 <= Qnat n.
Proof.
  unfold Qnat. change 0 with (inject_Z 0). rewrite <- Zle_Qle. lia.
Qed.

Lemma rewrap_bounds (c size : Q) : 0 <= size -> 0 <= rewrap c size <= size.
Proof.
  intros Hs. unfold rewrap, py_min, py_max.
  destruct (Qlt_bool 0 c) eqn:E1.
  - apply Qlt_bool_true in E1.
    destruct (Qlt_bool size c) eqn:E2.
    + split; [assumption | apply Qle_refl].
    + apply Qlt_bool_false in E2. split; [apply Qlt_le_weak; assumption | assumption].
  - destruct (Qlt_bool size 0) eqn:E2.
    + split; [assumption | apply Qle_refl].
    + split; [apply Qle_refl | assumption].
Qed.

Lemma transform_action_bounds (self : DetectionEnv) (action : Z) :
  let b := transform_action self action in
  (0 <= b_xmin b <= Qnat (width self)) /\ (0 <= b_ymin b <= Qnat (height self)) /\
  (0 <= b_xmax b <= Qnat (width self)) /\ (0 <= b_ymax b <= Qnat (height self)).
Proof.
  unfold transform_action.
  repeat match goal with |- context [if ?c then _ else _] => destruct c end;
    cbn; repeat split; apply rewrap_bounds, Qnat_nonneg.
Qed.

(** ** Rules for the outcome of a method *)

Lemma wp_ret {A} (a : A) Q self : Q (Ok a) self -> wp (mret a) Q self.
Proof. exact (fun HQ => HQ). Qed.

Lemma wp_get_self Q self : Q (Ok self) self -> wp get_self Q self.
Proof. exact (fun HQ => HQ). Qed.

Lemma wp_assign f Q self : Q (Ok tt) (f self) -> wp (assign f) Q self.
Proof. exact (fun HQ => HQ). Qed.

Lemma wp_lift {A} (r : result A) Q self : Q r self -> wp (lift r) Q self.
Proof. exact (fun HQ => HQ). Qed.

Lemma wp_bind {A B} (m : M A) (k : A -> M B) Q self :
  wp m (fun r self' =>
          match r with
          | Ok a => wp (k a) Q self'
          | Raise x => Q (Raise x) self'
          end) self ->
  wp (m ≫= k) Q self.
Proof.
  unfold wp, mbind, M_bind. destruct (m self) as [[a|x] self']; simpl; auto.
Qed.

Lemma wp_mono {A} (m : M A) (Q Q' : result A -> DetectionEnv -> Prop) self :
  (forall r self', Q r self' -> Q' r self') -> wp m Q self -> wp m Q' self.
Proof. unfold wp. auto. Qed.

(** One step through a method body. *)
Ltac wp_step :=
  lazymatch goal with
  | |- wp (_ ≫= _) _ _ => apply wp_bind
  | |- wp (mret _) _ _ => apply wp_ret
  | |- wp get_self _ _ => apply wp_get_self
  | |- wp (assign _) _ _ => apply wp_assign
  | |- wp (lift ?r) _ _ => apply wp_lift; destruct r; simpl
  | |- wp (if ?c then _ else _) _ _ => destruct c eqn:?
  end.

(** ** What the methods leave untouched *)

Lemma set_actions_history_same self : set_actions_history (actions_history self) self = self.
Proof. destruct self; reflexivity. Qed.

Lemma update_history_frame action self :
  wp (update_history action)
     (fun _ self' => exists h, self' = set_actions_history h self) self.
Proof.
  assert (Hrefl : exists h, self = set_actions_history h self)
    by (exists (actions_history self); symmetry; apply set_actions_history_same).
  unfold update_history.
  repeat wp_step; try assumption; eexists; reflexivity.
Qed.

Section Frames.
Context `{Externals}.

Lemma get_state_pure self : wp get_state (fun _ self' => self' = self) self.
Proof. unfold get_state, get_features. repeat wp_step; reflexivity. Qed.

Lemma get_info_pure self : wp get_info (fun _ self' => self' = self) self.
Proof. unfold get_info. repeat wp_step; reflexivity. Qed.

End Frames.

(** ** Walking through [step] and [reset] *)

Ltac env_simpl :=
  cbn [set_actions_history set_num_episodes set_bbox set_terminated
       set_truncated set_step_count set_cumulative_reward
       image original_image target_box height width target_size actions_history
       num_episodes bbox feature_extractor transform action_space observation_space
       terminated truncated max_steps step_count alpha nu cumulative_reward threshold
       ret_state ret_reward ret_terminated ret_truncated ret_info] in *.

(** Through a method body from a state given by its fields, which are
    brought up to date after every statement. *)
Ltac wp_walk :=
  repeat (lazymatch goal with
          | |- wp (update_history _) _ _ =>
              eapply wp_mono; [|apply update_history_frame]; intros [?|?] ? [? ->]
          | |- wp get_state _ _ =>
              eapply wp_mono; [|apply get_state_pure]; intros [?|?] ? ->
          | |- wp get_info _ _ =>
              eapply wp_mono; [|apply get_info_pure]; intros [?|?] ? ->
          | |- _ => wp_step
          end; env_simpl).

Section StepFacts.
Context `{Externals}.

(** Whether it returns or raises, [step] keeps the image dimensions, moves
    the box by [transform_action] or not at all, and counts at most one
    episode, which it does with one of the two flags set. *)
Lemma step_frame action self :
  wp (step action)
     (fun _ self' =>
        width self' = width self /\ height self' = height self /\
        (bbox self' = bbox self \/ bbox self' = transform_action self action) /\
        (num_episodes self' = num_episodes self \/
         (num_episodes self' = (num_episodes self + 1)%Z /\
          terminated self' || truncated self' = true))) self.
Proof.
  unfold step. destruct self. wp_walk; auto 10.
Qed.

(** The state [reset] leaves, whether [get_state] then returns or raises. *)
Lemma reset_state image original_image target_box max_steps alpha nu threshold
    extractor size self :
  snd (reset image original_image target_box max_steps alpha nu threshold
             extractor size self) =
  mkEnv image original_image target_box (img_height image) (img_width image) size
        sentinel_history 0%Z
        (mkBBox 0 0 (Qnat (img_width image)) (Qnat (img_height image)))
        extractor (transform_input image size)
        (action_space self) (observation_space self) (terminated self) false
        max_steps 0%Z alpha nu 0 threshold.
Proof.
  unfold reset.
  match goal with |- snd (?m self) = ?e => change (wp m (fun _ self' => self' = e) self) end.
  destruct self. wp_walk; reflexivity.
Qed.

Lemma full_image_in_bounds w h : 
  (0 <= 0 <= Qnat w) /\ (0 <= 0 <= Qnat h) /\ (0 <= Qnat w <= Qnat w) /\ (0 <= Qnat h <= Qnat h).
Proof.
  pose proof (Qnat_nonneg w). pose proof (Qnat_nonneg h).
  repeat split; auto using Qle_refl.
Qed.

Lemma reachable_bounds self : reachable self -> bbox_in_bounds self.
Proof.
  induction 1 as [image oi tb ms al n th ex sz self Hinit
                 |image oi tb ms al n th ex sz self Hreach IH
                 |action self Hreach IH
                 |h self Hreach IH].
  - unfold DetectionEnv_init in Hinit.
    destruct (tshape _); [discriminate|]. injection Hinit as <-.
    apply full_image_in_bounds.
  - rewrite reset_state. apply full_image_in_bounds.
  - pose proof (step_frame action self) as Hf. unfold wp in Hf.
    destruct Hf as (Hw & Hh & Hb & _).
    unfold bbox_in_bounds. rewrite Hw, Hh.
    destruct Hb as [-> | ->]; [exact IH | apply transform_action_bounds].
  - exact IH.
Qed.

End StepFacts.

(** ** The trigger and the step limit *)

(** C1 (the code departs from the claim). A call [step(8)] that returns, made
    while [truncated] is unset and the incremented [step_count] is below
    [max_steps], returns [terminated == False] and leaves the flag unset: the
    step-limit check [if not self.terminated or not self.truncated] runs
    after the trigger and overwrites the flag. *)
Theorem step_trigger_termination_overwritten `{Externals} self r self' :
  step 8 self = (Ok r, self') ->
  truncated self = false ->
  (step_count self + 1 < max_steps self)%Z ->
  ret_terminated r = false /\ terminated self' = false.
Proof.
  intros Hstep Htr Hlt. apply Z.leb_gt in Hlt.
  assert (Hwp : wp (step 8)
            (fun r self' =>
               match r with
               | Ok r => ret_terminated r = false /\ terminated self' = false
               | Raise _ => True
               end) self).
  { unfold step. destruct self. wp_walk; subst; auto; discriminate. }
  unfold wp in Hwp. rewrite Hstep in Hwp. exact Hwp.
Qed.

Lemma step_trigger_termination_overwritten_witness :
  match @step run_externals 8 (env_with 500 full_box full_box) with
  | (Ok r, self') => ret_terminated r = false /\ terminated self' = false
  | (Raise _, _) => False
  end.
Proof.
  destruct (@step run_externals 8 (env_with 500 full_box full_box))
    as [[r|x] self'] eqn:E.
  - apply (@step_trigger_termination_overwritten run_externals _ _ _ E);
      [reflexivity | reflexivity].
  - vm_compute in E. discriminate E.
Defined.

(** On the history list that the constructor builds, [step(8)] does not
    return at all: [torch.nonzero] refuses the list. *)
Example step_trigger_on_constructed :
  env_constructed = Ok env_new /\
  fst (@step run_externals 8 env_new) = Raise TypeError /\
  snd (@step run_externals 8 env_new) = env_new.
Proof. repeat split; vm_compute; reflexivity. Qed.

(** ** The stepwise reward *)

(** C2 (the code departs from the claim). [step] assigns the transformed box
    to [self.bbox] and then calls [self.calculate_reward(self.bbox,
    self.target_box)], which binds the environment object to [current_state]
    and the new box to [previous_state]: the box held before the transform
    takes no part. Action 4 sends both the full box and the inner box to the
    full box; whatever the reward function does, the two calls of [step] have
    the same outcome, while [step_reward] of the specification is [-1] from
    the full box and [+1] from the inner box. *)
Theorem step_reward_ignores_previous_box `{Externals} :
  transform_action (env_with 500 full_box full_box) 4 = full_box /\
  transform_action (env_with 500 inner_box full_box) 4 = full_box /\
  step 4 (env_with 500 full_box full_box) = step 4 (env_with 500 inner_box full_box) /\
  step_reward_spec full_box full_box full_box = -1 /\
  step_reward_spec full_box inner_box full_box = 1.
Proof.
  repeat split; vm_compute; reflexivity.
Qed.

(** With [iou] of the specification, which takes boxes, the call raises. *)
Example step_reward_raises :
  fst (@step run_externals 4 (env_with 500 inner_box full_box)) = Raise TypeError /\
  bbox (snd (@step run_externals 4 (env_with 500 inner_box full_box))) = full_box.
Proof. split; vm_compute; reflexivity. Qed.

(** ** The action history *)

Lemma bind_run {A B} (m : M A) (k : A -> M B) self :
  (m ≫= k) self =
  match m self with
  | (Ok a, self') => k a self'
  | (Raise x, self') => (Raise x, self')
  end.
Proof. reflexivity. Qed.

Lemma for_each_app {A} (l1 l2 : list A) (body : A -> M unit) self :
  for_each (l1 ++ l2) body self =
  match for_each l1 body self with
  | (Ok _, self') => for_each l2 body self'
  | (Raise x, self') => (Raise x, self')
  end.
Proof.
  revert self. induction l1 as [|a l1 IH]; intros self.
  - reflexivity.
  - cbn [app for_each]. rewrite !bind_run.
    destruct (body a self) as [[[]|x] s1]; [apply IH | reflexivity].
Qed.

Lemma count_nonzero_app (a b : list (list Q)) :
  count_nonzero (a ++ b) = (count_nonzero a + count_nonzero b)%nat.
Proof.
  unfold count_nonzero. rewrite concat_app, List.filter_app, length_app. reflexivity.
Qed.

Lemma one_hot_ok action :
  (0 <= action < 9)%Z -> vec_setitem (torch_zeros 9) action 1 = Ok (one_hot action).
Proof.
  intros Ha. unfold vec_setitem, norm_index. cbn [length torch_zeros replicate].
  replace ((0 <=? action)%Z && (action <? Z.of_nat 9)%Z) with true; [reflexivity|].
  symmetry. apply andb_true_iff. split; [apply Z.leb_le | apply Z.ltb_lt]; lia.
Qed.

(** One call on a tensor of at least nine rows of nine entries, nine of which
    or more are not zero: the call shifts. *)
Lemma update_history_shift action v rows self :
  actions_history self = HTensor rows ->
  vec_setitem (torch_zeros 9) action 1 = Ok v ->
  (9 <= length rows)%nat ->
  Forall (fun row => length row = 9%nat) rows ->
  (9 <= count_nonzero rows)%nat ->
  update_history action self =
    (Ok (HTensor (shift_push v rows)),
     set_actions_history (HTensor (shift_push v rows)) self).
Proof.
  intros Hh Hv Hlen Hrows Hcount.
  apply Nat.ltb_ge in Hcount.
  destruct self. cbn in Hh. subst.
  do 9 (destruct rows as [|? rows]; [simpl in Hlen; lia|]).
  repeat match goal with
         | Hf : Forall _ (_ :: _) |- _ =>
             let Hx := fresh "Hr" in apply Forall_cons in Hf as [Hx Hf]
         end.
  unfold update_history, mbind, M_bind, lift, get_self, assign, mret, M_ret.
  rewrite Hv. cbn [actions_history nonzero_len]. rewrite Hcount.
  cbn [for_each]. unfold mbind, M_bind, mret, M_ret.
  assert (Hlv : length v = 9%nat).
  { unfold vec_setitem in Hv. destruct (norm_index _ _); [|discriminate].
    injection Hv as <-. rewrite length_insert. reflexivity. }
  repeat (cbn -[Nat.eqb length];
          match goal with
          | |- context [Nat.eqb (length ?a) (length ?b)] =>
              replace (Nat.eqb (length a) (length b)) with true
                by (symmetry; apply Nat.eqb_eq; congruence)
          end).
  cbn. reflexivity.
Qed.

Lemma pushed_rows_snoc actions action :
  pushed_rows (actions ++ [action]) = shift_push (one_hot action) (pushed_rows actions).
Proof.
  unfold pushed_rows, shift_push. rewrite rev_app_distr. cbn [rev app map take].
  set (X := map one_hot (rev actions) ++ replicate 9 sentinel_row).
  assert (HX : (9 <= length X)%nat).
  { unfold X. rewrite length_app, length_replicate. lia. }
  assert (Ht : length (take 9 X) = 9%nat) by (rewrite length_take; lia).
  f_equal.
  rewrite take_app_le by lia.
  rewrite take_take. replace (8 `min` 9)%nat with 8%nat by reflexivity.
  rewrite drop_app_length' by (symmetry; exact Ht). reflexivity.
Qed.

Lemma pushed_rows_wf actions :
  length (pushed_rows actions) = 20%nat /\
  Forall (fun row => length row = 9%nat) (pushed_rows actions) /\
  (9 <= count_nonzero (pushed_rows actions))%nat.
Proof.
  unfold pushed_rows.
  set (X := map one_hot (rev actions) ++ replicate 9 sentinel_row).
  assert (HX : (9 <= length X)%nat).
  { unfold X. rewrite length_app, length_replicate. lia. }
  repeat split.
  - rewrite length_app, length_take, length_replicate. lia.
  - apply Forall_app. split.
    + apply Forall_take. unfold X. apply Forall_app. split.
      * apply Forall_map, Forall_forall. intros a _. unfold one_hot.
        rewrite length_insert. reflexivity.
      * apply Forall_replicate. reflexivity.
    + apply Forall_replicate. reflexivity.
  - rewrite count_nonzero_app.
    change (count_nonzero (replicate 11 sentinel_row)) with 99%nat. lia.
Qed.

(** From the all-sentinel tensor every call shifts, whatever the number of
    calls: the eleven sentinel rows that no shift reaches keep the count of
    non-zero entries above nine. *)
Lemma update_history_always_shifts (actions : list Z) self :
  Forall (fun action => (0 <= action < 9)%Z) actions ->
  actions_history self = sentinel_tensor ->
  push_all actions self =
    (Ok tt, set_actions_history (HTensor (pushed_rows actions)) self).
Proof.
  intros Hact Hh. induction actions as [|action actions IH] using rev_ind.
  - change (HTensor (pushed_rows [])) with sentinel_tensor.
    rewrite <- Hh, set_actions_history_same. reflexivity.
  - apply Forall_app in Hact as [Hact Ha]. apply Forall_cons in Ha as [Ha _].
    unfold push_all in *. rewrite for_each_app, (IH Hact).
    cbn [for_each]. unfold mbind, M_bind, mret, M_ret.
    destruct (pushed_rows_wf actions) as (Hlen & Hrows & Hcount).
    rewrite (update_history_shift action (one_hot action) (pushed_rows actions));
      [ | destruct self; reflexivity | apply one_hot_ok; exact Ha | lia
        | exact Hrows | exact Hcount].
    rewrite pushed_rows_snoc. destruct self; reflexivity.
Qed.

(** C3 (the code departs from the claim). On the all-sentinel tensor
    [torch.nonzero] counts the 180 entries equal to 100, so the test
    [size_history_vector < 9] fails from the first call on and every call
    shifts: after [update_history(3)] and [update_history(5)] slot 0 holds the
    second action and slot 1 the first, where append mode would have left the
    first action in slot 0 and put the second in slot 1. *)
Theorem update_history_shifts_from_sentinel :
  nonzero_len sentinel_tensor = Ok 180%nat /\
  fst (update_history 3 (env_with 500 full_box full_box)) =
    Ok (HTensor (one_hot_3 :: replicate 19 (replicate 9 100))) /\
  fst ((update_history 3 ≫= fun _ => update_history 5) (env_with 500 full_box full_box)) =
    Ok (HTensor (one_hot_5 :: one_hot_3 :: replicate 18 (replicate 9 100))).
Proof.
  repeat split; vm_compute; reflexivity.
Qed.

(** The 20 slots of the history built by the constructor and by [reset]
    hold one row object: [[[100]*9]*20] repeats a reference. *)
Example sentinel_rows_one_object :
  sentinel_history = HList (replicate 20 0%nat) [replicate 9 100].
Proof. reflexivity. Qed.



(** The call of the witness returns: slot 0 takes the entry of action 3 and
    the 19 other slots are still rows of zeros. *)
Example update_history_append_on_zeros :
  fst (update_history 3 env_zero) = Ok (HTensor (one_hot_3 :: zero_rows 19)) /\
  fst (update_history 3 env_new) = Raise TypeError.
Proof. split; vm_compute; reflexivity. Qed.

(** ** The observation *)

(** C4 (the code departs from the claim). The constructor declares the
    observation space with [feature_len + history_len] where [feature_len] is
    the leading dimension of the feature tensor and [history_len] the number
    of rows of the history, 20: for the extractor's output of shape
    [(1, 2048)] it declares 21, while [get_state] on a tensor history
    returns 2048 + 180 = 2228 entries (and raises on the list the
    constructor built). *)
Theorem observation_space_counts_rows :
  env_constructed = Ok env_new /\
  observation_space env_new = 21%nat /\
  (exists state,
     fst (@get_state run_externals (set_actions_history sentinel_tensor env_new)) = Ok state /\
     tshape state = [1; 2228]%nat /\ length (tdata state) = 2228%nat) /\
  fst (@get_state run_externals env_new) = Raise AttributeError.
Proof.
  split; [vm_compute; reflexivity|].
  split; [reflexivity|].
  split; [|vm_compute; reflexivity].
  eexists. split; [vm_compute; reflexivity|].
  split; reflexivity.
Qed.

Section Observation.
Context `{Externals}.

(** The declared length, for every constructed environment. *)
Lemma observation_space_declared image original_image target_box max_steps alpha nu
    threshold extractor size :
  match DetectionEnv_init image original_image target_box max_steps alpha nu threshold
                          extractor size with
  | Ok self =>
      observation_space self =
        (hd 0%nat (tshape (features_of extractor size image)) + 20)%nat
  | Raise _ => tshape (features_of extractor size image) = []
  end.
Proof.
  unfold DetectionEnv_init. destruct (tshape _); reflexivity.
Qed.

(** The length [get_state] returns on a tensor history of 20 rows of 9. *)
Lemma get_state_length self rows state :
  actions_history self = HTensor rows ->
  length rows = 20%nat -> Forall (fun row => length row = 9%nat) rows ->
  fst (get_state self) = Ok state ->
  length (tdata state) =
    (length (tdata (features_of (feature_extractor self) (target_size self)
                                (transform_input (image self) (target_size self)))) + 180)%nat.
Proof.
  intros Hh Hlen Hrows.
  assert (Hcat : length (concat rows) = 180%nat).
  { do 21 (destruct rows as [|? rows]; try discriminate Hlen).
    repeat match goal with
           | Hf : Forall _ (_ :: _) |- _ =>
               let Hx := fresh in apply Forall_cons in Hf as [Hx Hf]
           end.
    simpl. rewrite !length_app. simpl. lia. }
  unfold get_state, get_features, mbind, M_bind, mret, M_ret, get_self, lift.
  cbn [fst snd]. rewrite Hh.
  unfold hist_view_1_m1, view_1_m1, torch_cat1. cbn [tdata tshape].
  intros [= <-]. cbn [tdata]. rewrite length_app. lia.
Qed.

End Observation.

(** ** The episode life cycle *)

(** C5 (as stated, refuted). After an episode that ended, [num_episodes] is
    1; [reset] sets it to 0. *)
Lemma reset_zeroes_num_episodes :
  num_episodes (snd (reset_100 env_after_trigger)) <> num_episodes env_after_trigger.
Proof. vm_compute. discriminate. Qed.

(** C5 (amended). [reset] sets [num_episodes] to 0 whatever it was, as the
    constructor does; [step] adds one to it when it leaves [terminated] or
    [truncated] set and otherwise keeps it, and a returning call adds one
    exactly when it returns one of the flags set; [update_history],
    [get_state] and [get_info] keep it. *)
Theorem num_episodes_lifecycle `{Externals} :
  (forall image original_image target_box max_steps alpha nu threshold extractor size,
     match DetectionEnv_init image original_image target_box max_steps alpha nu
                             threshold extractor size with
     | Ok self => num_episodes self = 0%Z
     | Raise _ => True
     end) /\
  (forall image original_image target_box max_steps alpha nu threshold extractor size self,
     num_episodes (snd (reset image original_image target_box max_steps alpha nu
                              threshold extractor size self)) = 0%Z) /\
  (forall action self,
     num_episodes (snd (step action self)) = num_episodes self \/
     (num_episodes (snd (step action self)) = (num_episodes self + 1)%Z /\
      terminated (snd (step action self)) || truncated (snd (step action self)) = true)) /\
  (forall action self,
     match step action self with
     | (Ok r, self') =>
         num_episodes self' =
           (num_episodes self + if ret_terminated r || ret_truncated r then 1 else 0)%Z
     | (Raise _, _) => True
     end) /\
  (forall action self,
     num_episodes (snd (update_history action self)) = num_episodes self) /\
  (forall self, snd (get_state self) = self) /\
  (forall self, snd (get_info self) = self).
Proof.
  split; [|split; [|split; [|split; [|split; [|split]]]]].
  - intros. unfold DetectionEnv_init. destruct (tshape _); [exact I | reflexivity].
  - intros. rewrite reset_state. reflexivity.
  - intros action self. pose proof (step_frame action self) as Hf. unfold wp in Hf.
    tauto.
  - intros action self.
    assert (Hwp : wp (step action)
              (fun r self' =>
                 match r with
                 | Ok r => num_episodes self' =
                     (num_episodes self + if ret_terminated r || ret_truncated r then 1 else 0)%Z
                 | Raise _ => True
                 end) self).
    { unfold step. destruct self. wp_walk; auto;
        repeat match goal with
               | Hb : _ = _ |- _ => rewrite Hb
               end; auto using Z.add_0_r. }
    unfold wp in Hwp. destruct (step action self) as [[r|x] self']; exact Hwp.
  - intros action self. pose proof (update_history_frame action self) as Hf.
    unfold wp in Hf. destruct Hf as [h ->]. reflexivity.
  - intros self. apply (get_state_pure self).
  - intros self. apply (get_info_pure self).
Qed.

(** C6 (the code departs from the claim). [reset] assigns the box, the
    counters, [truncated] and the history, and has no assignment to
    [self.terminated], which the constructor sets to [False]: the flag keeps
    its value, so an environment whose episode has ended is still
    [terminated] after [reset]. *)
Theorem reset_keeps_terminated `{Externals} :
  (forall image original_image target_box max_steps alpha nu threshold extractor size self,
     let self' := snd (reset image original_image target_box max_steps alpha nu
                             threshold extractor size self) in
     terminated self' = terminated self /\ truncated self' = false /\
     step_count self' = 0%Z /\ cumulative_reward self' = 0 /\
     bbox self' = mkBBox 0 0 (Qnat (width self')) (Qnat (height self')) /\
     actions_history self' = sentinel_history) /\
  terminated env_after_trigger = true /\
  terminated (snd (reset_100 env_after_trigger)) = true.
Proof.
  split; [|split; vm_compute; reflexivity].
  intros. subst self'. rewrite reset_state. repeat split.
Qed.

(** ** The clamp *)

(** C7. Every coordinate of the box returned by [transform_action] lies
    between 0 and the image dimension it is clamped to by [rewrap], for every
    box, configuration and action; and the box of every state that an
    environment reaches through construction, [reset] and [step] lies within
    the image. *)
Theorem bbox_always_clamped `{Externals} :
  (forall coordinate size, rewrap coordinate size = py_min (py_max 0 coordinate) size) /\
  (forall self action,
     (0 <= b_xmin (transform_action self action) <= Qnat (width self)) /\
     (0 <= b_ymin (transform_action self action) <= Qnat (height self)) /\
     (0 <= b_xmax (transform_action self action) <= Qnat (width self)) /\
     (0 <= b_ymax (transform_action self action) <= Qnat (height self))) /\
  (forall self, reachable self -> bbox_in_bounds self).
Proof.
  split; [reflexivity|]. split.
  - intros self action. apply transform_action_bounds.
  - intros self. apply reachable_bounds.
Qed.

Lemma bbox_always_clamped_witness :
  @reachable run_externals
     (snd (@step run_externals 5 (set_actions_history sentinel_tensor env_new))) /\
  bbox_in_bounds (snd (@step run_externals 5 (set_actions_history sentinel_tensor env_new))).
Proof.
  assert (Hreach : @reachable run_externals
            (snd (@step run_externals 5 (set_actions_history sentinel_tensor env_new)))).
  { apply reach_step, reach_history.
    apply (@reach_init run_externals image_100 image_100 full_box 500%Z
             (2 # 10) 3 (5 # 10) vgg16_features (224, 224)%nat).
    vm_compute. reflexivity. }
  split; [exact Hreach|].
  exact (proj2 (proj2 (@bbox_always_clamped run_externals)) _ Hreach).
Defined.

(** The box that action 5 leaves in that state. *)
Example shrink_from_full_image :
  bbox (snd (@step run_externals 5 (set_actions_history sentinel_tensor env_new))) =
  mkBBox (200 # 10) (200 # 10) (800 # 10) (800 # 10).
Proof. vm_compute. reflexivity. Qed.

(** ** The value estimators *)

Module ModelFacts.
Import Models.

Lemma Qnat_S n : Qnat (S n) == Qnat n + 1.
Proof.
  unfold Qnat. rewrite Nat2Z.inj_succ. unfold Z.succ. rewrite inject_Z_plus. reflexivity.
Qed.

(** Subtracting a constant from every entry of a vector. *)
Lemma vsum_shift (f : Q -> Q) (c : Q) (v : vec) :
  (forall x, f x == x - c) ->
  vsum (map f v) == vsum v - Qnat (length v) * c.
Proof.
  intros Hf. induction v as [|x v IH]; simpl.
  - unfold Qnat. simpl. ring.
  - rewrite IH, Hf, Qnat_S. ring.
Qed.

Lemma mean_centred (f : Q -> Q) (v : vec) :
  (forall x, f x == x - mean v) -> v <> [] -> mean (map f v) == 0.
Proof.
  intros Hf Hv. unfold mean at 1.
  rewrite (vsum_shift f (mean v) v Hf).
  rewrite length_map. unfold mean.
  assert (Hn : ~ Qnat (length v) == 0).
  { destruct v as [|x v]; [congruence|].
    intros Hz. pose proof (Qnat_nonneg (length v)) as Hge.
    cbn [length] in Hz. rewrite Qnat_S in Hz.
    assert (Hlt : 0 < Qnat (length v) + 1).
    { apply Qle_lt_trans with (Qnat (length v)); [assumption|].
      rewrite <- (Qplus_0_r (Qnat (length v))) at 1.
      apply Qplus_lt_r. reflexivity. }
    rewrite Hz in Hlt. exact (Qlt_irrefl _ Hlt). }
  field. exact Hn.
Qed.

Lemma vsum_ext {A} (f h : A -> Q) (l : list A) :
  Forall (fun a => f a == h a) l -> vsum (map f l) == vsum (map h l).
Proof.
  induction 1 as [|a l Ha Hl IH]; simpl; [reflexivity|].
  rewrite IH, Ha. reflexivity.
Qed.

Lemma mean_ext (a b : vec) :
  vsum a == vsum b -> length a = length b -> mean a == mean b.
Proof. intros Hs Hl. unfold mean. rewrite Hs, Hl. reflexivity. Qed.

Lemma broadcast2_left {A} (f : A -> A -> A) (x : A) (b : list A) :
  broadcast2 f [x] b = map (f x) b.
Proof. reflexivity. Qed.

Lemma broadcast2_right {A} (f : A -> A -> A) (a : list A) (y : A) :
  (2 <= length a)%nat -> broadcast2 f a [y] = map (fun x => f x y) a.
Proof.
  destruct a as [|a1 [|a2 a']]; simpl; intros Hlen; try lia. reflexivity.
Qed.

Section DuelingFacts.
Context `{Torch32}.

(** The output of [DuelingDQN.forward] entry by entry, for a value head of
    one output and an advantage head of at least two. *)
Lemma DuelingDQN_forward_entries (net : DuelingDQN) (X : list float32) (v : float32) :
  DuelingDQN_value net X = [v] ->
  (2 <= length (DuelingDQN_adv net X))%nat ->
  DuelingDQN_forward net X =
    map (fun a => f32_sub (f32_add v a) (mean32 (DuelingDQN_adv net X)))
        (DuelingDQN_adv net X).
Proof.
  unfold DuelingDQN_forward, DuelingDQN_value, DuelingDQN_adv, mean_keepdim.
  intros ->.
  intros Hlen.
  rewrite broadcast2_left, broadcast2_right by (rewrite length_map; exact Hlen).
  rewrite map_map. reflexivity.
Qed.

(** C8 (amended). For a dueling network whose value head has one output
    [v] and whose advantage head has nine, for every input and every value
    of the parameters, and whatever torch's kernels compute, the scores are
    the [float32] numbers [(v + a) - mean(adv)], one for each advantage [a].
    When the mean of the advantages and these nine sums and differences are
    finite and have not rounded, the mean over the nine actions of
    [Q - value] is 0. *)
Theorem dueling_mean_zero_without_rounding (net : DuelingDQN) (X : list float32)
    (v : float32) :
  DuelingDQN_value net X = [v] ->
  length (DuelingDQN_adv net X) = 9%nat ->
  let adv := DuelingDQN_adv net X in
  let scores := DuelingDQN_forward net X in
  scores = map (fun a => f32_sub (f32_add v a) (mean32 adv)) adv /\
  (exactly (mean32 adv) (mean (map F2Q adv)) ->
   Forall (fun a => exactly (f32_sub (f32_add v a) (mean32 adv))
                            (F2Q v + F2Q a - F2Q (mean32 adv))) adv ->
   mean (map (fun q => F2Q q - F2Q v) scores) == 0).
Proof.
  intros Ev Hlen adv scores.
  assert (Hentries : scores = map (fun a => f32_sub (f32_add v a) (mean32 adv)) adv).
  { subst scores adv. apply DuelingDQN_forward_entries; [exact Ev | lia]. }
  split; [exact Hentries|].
  intros [_ Hm] Hall. rewrite Hentries, map_map.
  assert (Hsum : vsum (map (fun a => F2Q (f32_sub (f32_add v a) (mean32 adv)) - F2Q v) adv) ==
                 vsum (map (fun x => x - mean (map F2Q adv)) (map F2Q adv))).
  { rewrite map_map. apply vsum_ext.
    eapply Forall_impl; [exact Hall|].
    intros a [_ Ha]. cbv beta. rewrite Ha, Hm. ring. }
  assert (Hmean : mean (map (fun a => F2Q (f32_sub (f32_add v a) (mean32 adv)) - F2Q v) adv) ==
                  mean (map (fun x => x - mean (map F2Q adv)) (map F2Q adv))).
  { apply mean_ext; [exact Hsum | rewrite !length_map; reflexivity]. }
  rewrite Hmean. apply mean_centred.
  - intros x. reflexivity.
  - intros Hnil. apply (f_equal (@length Q)) in Hnil.
    rewrite length_map in Hnil. subst adv. rewrite Hlen in Hnil. discriminate Hnil.
Qed.

End DuelingFacts.

Lemma dueling_mean_zero_without_rounding_witness :
  @DuelingDQN_forward run_torch32 exact_dueling observation_12 =
    map f32_of_Z [11; 2; 2; 2; 2; 2; 2; 2; 2]%Z /\
  mean (map (fun q => F2Q q - F2Q (f32_of_Z 3))
            (@DuelingDQN_forward run_torch32 exact_dueling observation_12)) == 0.
Proof.
  destruct (@dueling_mean_zero_without_rounding run_torch32 exact_dueling observation_12
              (f32_of_Z 3)) as [Hentries Hmean].
  - vm_compute. reflexivity.
  - vm_compute. reflexivity.
  - split.
    + vm_compute. reflexivity.
    + apply Hmean.
      * vm_compute. split; reflexivity.
      * replace (@DuelingDQN_adv run_torch32 exact_dueling observation_12)
          with (map f32_of_Z [9; 0; 0; 0; 0; 0; 0; 0; 0]%Z)
          by (vm_compute; reflexivity).
        cbn [map].
        repeat (constructor; [vm_compute; split; reflexivity|]).
        constructor.
Defined.

(** C8 (as stated, refuted). With value [2^24] and advantages
    [1, -1, 0, ..., 0] the mean of the advantages is 0 without rounding,
    [2^24 + 1] rounds to [2^24] and [2^24 - 1] is exact: the scores are
    [2^24, 2^24 - 1, 2^24, ..., 2^24], and the mean over the nine actions of
    [Q - value] is [-1/9], whether the differences and their mean are taken
    in rationals or in [float32].  Every sum that a kernel accumulates here
    has terms 0, 1 and -1 only, so its value does not depend on the order. *)
Lemma dueling_mean_not_zero_when_rounding :
  let value := f32_of_Z 16777216 in
  let scores := @DuelingDQN_forward run_torch32 rounding_dueling observation_12 in
  @DuelingDQN_value run_torch32 rounding_dueling observation_12 = [value] /\
  @DuelingDQN_adv run_torch32 rounding_dueling observation_12 =
    map f32_of_Z [1; -1; 0; 0; 0; 0; 0; 0; 0]%Z /\
  scores = map f32_of_Z [16777216; 16777215; 16777216; 16777216; 16777216;
                         16777216; 16777216; 16777216; 16777216]%Z /\
  mean (map (fun q => F2Q q - F2Q value) scores) == - (1 # 9) /\
  ~ mean (map (fun q => F2Q q - F2Q value) scores) == 0 /\
  @mean32 run_torch32 (map (fun q => f32_sub q value) scores) =
    f32_div (f32_of_Z (-1)) (f32_of_Z 9) /\
  F2Q (f32_div (f32_of_Z (-1)) (f32_of_Z 9)) == - (14913081 # 134217728).
Proof.
  cbv zeta.
  split; [vm_compute; reflexivity|].
  split; [vm_compute; reflexivity|].
  split; [vm_compute; reflexivity|].
  split; [vm_compute; reflexivity|].
  split; [intros E; vm_compute in E; discriminate E|].
  split; vm_compute; reflexivity.
Qed.

Section EstimatorFacts.
Context `{Torch}.

(** C9. With [training] unset, [NoisyLinear.forward] is the linear map of
    the means: it draws nothing from the generator, and neither the noise
    scales nor [sigma] nor the generator change its output. The same holds
    for [NoisyDQN.forward] after [eval()], which is the linear map of the
    means of [a2] after [tanh] after that of [a1]. *)
Theorem noisy_eval_uses_means_only :
  (forall w_mu b_mu w_sigma b_sigma w_sigma' b_sigma' x sigma sigma' g g',
     NoisyLinear_forward (mkNoisyLinear w_mu w_sigma b_mu b_sigma false) x sigma g =
       (F_linear x w_mu b_mu, g) /\
     fst (NoisyLinear_forward (mkNoisyLinear w_mu w_sigma b_mu b_sigma false) x sigma g) =
     fst (NoisyLinear_forward (mkNoisyLinear w_mu w_sigma' b_mu b_sigma' false) x sigma' g')) /\
  (forall w1 b1 w2 b2 s1 t1 s2 t2 s1' t1' s2' t2' m1 m2 m1' m2' X g g',
     let net := mkNoisyDQN (mkNoisyLinear w1 s1 b1 t1 m1) (mkNoisyLinear w2 s2 b2 t2 m2) in
     let net' := mkNoisyDQN (mkNoisyLinear w1 s1' b1 t1' m1') (mkNoisyLinear w2 s2' b2 t2' m2') in
     NoisyDQN_forward (NoisyDQN_eval net) X g =
       (F_linear (map tanh (F_linear X w1 b1)) w2 b2, g) /\
     fst (NoisyDQN_forward (NoisyDQN_eval net) X g) =
     fst (NoisyDQN_forward (NoisyDQN_eval net') X g')).
Proof.
  split.
  - intros. split; reflexivity.
  - intros. split; reflexivity.
Qed.

End EstimatorFacts.

(** In training mode the noise scales and the generator do matter. *)
Example noisy_training_uses_noise :
  fst (@NoisyLinear_forward run_torch (mkNoisyLinear [[1]] [[1]] [0] [0] true) [1] 1 [1]) = [2] /\
  fst (@NoisyLinear_forward run_torch (mkNoisyLinear [[1]] [[0]] [0] [0] true) [1] 1 [1]) = [1] /\
  fst (@NoisyLinear_forward run_torch (mkNoisyLinear [[1]] [[1]] [0] [0] false) [1] 1 [1]) = [1].
Proof. repeat split; vm_compute; reflexivity. Qed.

End ModelFacts.

(** * Further properties *)

(** ** The rewards *)

Lemma calculate_reward_range f a b t r :
  calculate_reward f a b t = Ok r -> r = 1 \/ r = -1.
Proof.
  unfold calculate_reward, result_bind.
  destruct (f a t); [|discriminate]. destruct (f b t); [|discriminate].
  destruct (Qle_bool _ _); intros [= <-]; auto.
Qed.

Lemma calculate_trigger_reward_range f self a t r :
  calculate_trigger_reward f self a t = Ok r -> r = nu self \/ r = -1 * nu self.
Proof.
  unfold calculate_trigger_reward, result_bind.
  destruct (f a t); [|discriminate].
  destruct (Qle_bool _ _); intros [= <-]; auto.
Qed.

(** [calculate_reward] returns [1] when the reward function scores the
    current state strictly above the previous one and [-1] otherwise; it
    raises exactly when the reward function raises on the current state, or
    returns there and raises on the previous state, and then with that
    exception.  So it rewards one direction at most: of a pair of states
    compared both ways, one comparison at least returns [-1], and a state
    compared with itself returns [-1]. *)
Theorem calculate_reward_one_way (f : pyval -> pyval -> result Q) (a b t : pyval) :
  calculate_reward f a b t =
    match f a t, f b t with
    | Ok iou_current, Ok iou_previous =>
        Ok (if Qlt_bool iou_previous iou_current then 1 else -1)
    | Ok _, Raise x => Raise x
    | Raise x, _ => Raise x
    end /\
  match calculate_reward f a b t, calculate_reward f b a t with
  | Ok r1, Ok r2 => (r1 = 1 \/ r1 = -1) /\ (r1 = -1 \/ r2 = -1)
  | Raise x, _ => f a t = Raise x \/ f b t = Raise x
  | _, Raise x => f a t = Raise x \/ f b t = Raise x
  end /\
  match calculate_reward f a a t with
  | Ok r => r = -1
  | Raise x => f a t = Raise x
  end.
Proof.
  unfold calculate_reward, result_bind.
  assert (Hsame : forall q, Qle_bool (q - q) 0 = true)
    by (intros q; apply Qle_bool_iff; lra).
  assert (Hcmp : forall p q, Qle_bool (p - q) 0 = negb (Qlt_bool q p)).
  { intros p q. unfold Qlt_bool. rewrite negb_involutive.
    destruct (Qle_bool p q) eqn:E.
    - apply Qle_bool_iff in E. apply Qle_bool_iff. lra.
    - destruct (Qle_bool (p - q) 0) eqn:E'; [|reflexivity].
      apply Qle_bool_iff in E'. assert (Hle : p <= q) by lra.
      apply Qle_bool_iff in Hle. congruence. }
  destruct (f a t) as [qa|xa], (f b t) as [qb|xb]; rewrite ?Hsame; auto.
  split; [rewrite Hcmp; destruct (Qlt_bool qb qa); reflexivity|].
  split; [|reflexivity].
  destruct (Qle_bool (qa - qb) 0) eqn:E1, (Qle_bool (qb - qa) 0) eqn:E2; auto.
  exfalso. destruct (Qlt_le_dec 0 (qa - qb)) as [Hlt|Hle].
  - assert (Hle : qb - qa <= 0) by lra. apply Qle_bool_iff in Hle. congruence.
  - apply Qle_bool_iff in Hle. congruence.
Qed.

(** ** The outcome of [step] *)

Lemma wp_run {A} (m : M A) Q self :
  wp m Q self -> match m self with (r, self') => Q r self' end.
Proof. unfold wp. destruct (m self); auto. Qed.

Section StepOutcome.
Context `{Externals}.

Lemma get_info_echo self :
  wp get_info
     (fun r self' =>
        self' = self /\
        match r with
        | Ok i => info_echoes i self
        | Raise _ => True
        end) self.
Proof.
  unfold get_info, info_echoes.
  apply wp_bind, wp_get_self.
  apply wp_bind, wp_lift.
  destruct (iou _ _) as [q|x]; [|split; [reflexivity|exact I]].
  apply wp_bind, wp_lift.
  destruct (recall _ _) as [q'|x]; [|split; [reflexivity|exact I]].
  apply wp_ret. cbn. repeat split.
Qed.

(** Through a method body, keeping what the rewards and [get_info] return. *)
Ltac wp_walk_info :=
  repeat (lazymatch goal with
          | |- wp (update_history _) _ _ =>
              eapply wp_mono; [|apply update_history_frame]; intros [?|?] ? [? ->]
          | |- wp get_state _ _ =>
              eapply wp_mono; [|apply get_state_pure]; intros [?|?] ? ->
          | |- wp get_info _ _ =>
              eapply wp_mono; [|apply get_info_echo];
              unfold info_echoes; intros [?|?] ? [-> ?]
          | |- wp (lift ?r) _ _ => apply wp_lift; destruct r eqn:?
          | |- _ => wp_step
          end; env_simpl).

(** Everything a call of [step] settles. *)
Lemma step_outcome action self :
  wp (step action)
     (fun r self' =>
        same_config self self' /\
        match r with
        | Ok r =>
            step_count self' = (step_count self + 1)%Z /\
            cumulative_reward self' = cumulative_reward self + ret_reward r /\
            ret_terminated r = step_flag action self /\
            ret_truncated r = step_flag action self /\
            terminated self' = step_flag action self /\
            truncated self' = step_flag action self /\
            num_episodes self' =
              (num_episodes self + if step_flag action self then 1 else 0)%Z /\
            bbox self' =
              (if (action <? 8)%Z then transform_action self action else bbox self) /\
            (if (action <? 8)%Z then ret_reward r = 1 \/ ret_reward r = -1
             else ret_reward r = nu self \/ ret_reward r = -1 * nu self) /\
            info_echoes (ret_info r) self'
        | Raise _ => True
        end) self.
Proof.
  unfold step.
  destruct self as [im oi tb h w ts ah ne bb fe tr asp osp te tu ms sc al nn cr th].
  wp_walk_info.
  all: unfold same_config, info_echoes, step_flag; env_simpl.
  all: (split; [repeat split|]; try exact I).
  all: repeat match goal with
              | Hc : calculate_reward _ _ _ _ = Ok _ |- _ =>
                  apply calculate_reward_range in Hc
              | Hc : calculate_trigger_reward _ _ _ _ = Ok _ |- _ =>
                  apply calculate_trigger_reward_range in Hc; env_simpl
              | Hb : (_ <? 8)%Z = _ |- _ => rewrite Hb in *; clear Hb
              end.
  all: destruct te, tu; simpl in *; try discriminate;
       destruct (ms <=? sc + 1)%Z; simpl in *; try discriminate;
       intuition; lia.
Qed.

(** A call of [step] that returns has counted one step, has added the
    reward it returns to [cumulative_reward], and returns an [info] dictionary
    that echoes the state it leaves. *)
Theorem step_counts_and_accumulates action self :
  match step action self with
  | (Ok r, self') =>
      step_count self' = (step_count self + 1)%Z /\
      cumulative_reward self' = cumulative_reward self + ret_reward r /\
      info_echoes (ret_info r) self'
  | (Raise _, _) => True
  end.
Proof.
  pose proof (wp_run _ _ _ (step_outcome action self)) as Ho.
  destruct (step action self) as [[r|x] self']; [|exact I].
  tauto.
Qed.

(** A call of [step] that returns gives [terminated] and [truncated] the
    same value, which it also leaves in the two fields: true when both were
    set before the call (the trigger standing for [terminated]) or when the
    incremented [step_count] reaches [max_steps], false otherwise. *)
Theorem step_flags_coincide action self :
  match step action self with
  | (Ok r, self') =>
      ret_terminated r = ret_truncated r /\
      ret_terminated r = step_flag action self /\
      terminated self' = ret_terminated r /\ truncated self' = ret_truncated r
  | (Raise _, _) => True
  end.
Proof.
  pose proof (wp_run _ _ _ (step_outcome action self)) as Ho.
  destruct (step action self) as [[r|x] self']; [|exact I].
  destruct Ho as (_ & _ & _ & -> & -> & -> & -> & _). auto.
Qed.

(** Once both flags are set, every further call of [step] that returns keeps
    them set and adds one more to [num_episodes]. *)
Theorem step_after_end_counts_again action self r self' :
  terminated self = true -> truncated self = true ->
  step action self = (Ok r, self') ->
  ret_terminated r = true /\ ret_truncated r = true /\
  num_episodes self' = (num_episodes self + 1)%Z.
Proof.
  intros Hte Htr Hstep.
  pose proof (wp_run _ _ _ (step_outcome action self)) as Ho.
  rewrite Hstep in Ho.
  destruct Ho as (_ & _ & _ & -> & -> & _ & _ & -> & _).
  unfold step_flag. rewrite Hte, Htr.
  destruct (action <? 8)%Z; auto.
Qed.

(** A call of [step] that returns with an action below 8 returns [1] or
    [-1] and has replaced the box by [transform_action]; with the trigger it
    returns [nu] or [-1 * nu] and has kept the box. *)
Theorem step_reward_range action self :
  match step action self with
  | (Ok r, self') =>
      if (action <? 8)%Z
      then (ret_reward r = 1 \/ ret_reward r = -1) /\
           bbox self' = transform_action self action
      else (ret_reward r = nu self \/ ret_reward r = -1 * nu self) /\
           bbox self' = bbox self
  | (Raise _, _) => True
  end.
Proof.
  pose proof (wp_run _ _ _ (step_outcome action self)) as Ho.
  destruct (step action self) as [[r|x] self']; [|exact I].
  destruct Ho as (_ & _ & _ & _ & _ & _ & _ & _ & Hb & Hr & _).
  destruct (action <? 8)%Z; auto.
Qed.

(** Whether it returns or raises, [step] keeps the image, the target box,
    the image dimensions, the extractor, the declared observation length and
    the configuration ([max_steps], [alpha], [nu], [threshold]). *)
Theorem step_keeps_config action self :
  same_config self (snd (step action self)).
Proof.
  pose proof (wp_run _ _ _ (step_outcome action self)) as Ho.
  destruct (step action self) as [r self']. apply Ho.
Qed.

(** [step] does not validate the action: an action outside [-9, 8] raises
    [IndexError] at [action_vector[action] = 1], before any assignment. *)
Theorem step_invalid_action action self :
  (action < -9 \/ 9 <= action)%Z ->
  step action self = (Raise IndexError, self).
Proof.
  intros Ha.
  assert (Hv : vec_setitem (torch_zeros 9) action 1 = Raise IndexError).
  { unfold vec_setitem, norm_index. cbn [length torch_zeros replicate].
    replace ((0 <=? action)%Z && (action <? Z.of_nat 9)%Z) with false
      by (symmetry; apply andb_false_iff; rewrite Z.leb_gt, Z.ltb_ge; lia).
    replace ((- Z.of_nat 9 <=? action)%Z && (action <? 0)%Z) with false
      by (symmetry; apply andb_false_iff; rewrite Z.leb_gt, Z.ltb_ge; lia).
    reflexivity. }
  unfold step, update_history. rewrite !bind_run. unfold lift at 1. rewrite Hv.
  reflexivity.
Qed.

(** While the history is the Python list that the constructor and [reset]
    build, [step] raises [TypeError] for every action that indexes the action
    vector, and changes nothing. *)
Theorem step_on_list_history action outer heap self :
  actions_history self = HList outer heap ->
  (-9 <= action < 9)%Z ->
  step action self = (Raise TypeError, self).
Proof.
  intros Hh Ha.
  assert (Hv : exists v, vec_setitem (torch_zeros 9) action 1 = Ok v).
  { unfold vec_setitem, norm_index. cbn [length torch_zeros replicate].
    destruct ((0 <=? action)%Z && (action <? Z.of_nat 9)%Z) eqn:E1;
      [eexists; reflexivity|].
    replace ((- Z.of_nat 9 <=? action)%Z && (action <? 0)%Z) with true;
      [eexists; reflexivity|].
    symmetry. apply andb_false_iff in E1. rewrite Z.leb_gt, Z.ltb_ge in E1.
    apply andb_true_iff. rewrite Z.leb_le, Z.ltb_lt. lia. }
  destruct Hv as [v Hv].
  unfold step, update_history. rewrite !bind_run. unfold lift at 1. rewrite Hv.
  rewrite !bind_run. unfold get_self at 1. rewrite !bind_run. unfold lift at 1.
  rewrite Hh. reflexivity.
Qed.

(** ** [reset] and [get_state] *)

(** [reset] never returns an observation: whatever the arguments and the
    feature tensor, also one without entries, its [get_state] raises
    [AttributeError], the history that [reset] has just installed being a
    list. *)
Theorem reset_never_returns img original target limit a n th extractor size self :
  fst (reset img original target limit a n th extractor size self) =
  Raise AttributeError.
Proof.
  unfold reset, get_state, get_features, assign, get_self, lift, mbind, M_bind,
    mret, M_ret, view_1_m1.
  reflexivity.
Qed.

(** [reset] leaves the state that the constructor builds from the same
    arguments, but for [terminated] and the two declared spaces, which it
    does not assign. *)
Theorem reset_matches_constructor img original target limit a n th extractor size self :
  match DetectionEnv_init img original target limit a n th extractor size with
  | Ok fresh =>
      snd (reset img original target limit a n th extractor size self) =
      mkEnv (image fresh) (original_image fresh) (target_box fresh) (height fresh)
            (width fresh) (target_size fresh) (actions_history fresh)
            (num_episodes fresh) (bbox fresh) (feature_extractor fresh)
            (transform fresh) (action_space self) (observation_space self)
            (terminated self) (truncated fresh) (max_steps fresh) (step_count fresh)
            (alpha fresh) (nu fresh) (cumulative_reward fresh) (threshold fresh)
  | Raise _ => True
  end.
Proof.
  rewrite reset_state. unfold DetectionEnv_init.
  destruct (tshape _); [exact I | reflexivity].
Qed.


End StepOutcome.

Lemma step_after_end_counts_again_witness :
  match @step run_externals 8 env_after_trigger with
  | (Ok r, self') =>
      ret_terminated r = true /\ ret_truncated r = true /\
      num_episodes self' = (num_episodes env_after_trigger + 1)%Z
  | (Raise _, _) => False
  end.
Proof.
  destruct (@step run_externals 8 env_after_trigger) as [[r|x] self'] eqn:E.
  - apply (@step_after_end_counts_again run_externals _ _ _ _
             (eq_refl : terminated env_after_trigger = true)
             (eq_refl : truncated env_after_trigger = true) E).
  - vm_compute in E. discriminate E.
Defined.

Lemma step_invalid_action_witness :
  @step run_externals 9 env_new = (Raise IndexError, env_new).
Proof. apply (@step_invalid_action run_externals 9 env_new). right. lia. Defined.

Lemma step_on_list_history_witness :
  @step run_externals 0 env_new = (Raise TypeError, env_new).
Proof.
  apply (@step_on_list_history run_externals 0 _ _ env_new eq_refl). lia.
Defined.


(** ** The geometry of [transform_action] *)

Lemma rewrap_cases c s :
  (rewrap c s = c /\ 0 < c /\ c <= s) \/
  (rewrap c s = s /\ 0 < c /\ s < c) \/
  (rewrap c s = 0 /\ c <= 0 /\ 0 <= s) \/
  (rewrap c s = s /\ c <= 0 /\ s < 0).
Proof.
  unfold rewrap, py_min, py_max.
  destruct (Qlt_bool 0 c) eqn:E1.
  - apply Qlt_bool_true in E1. destruct (Qlt_bool s c) eqn:E2.
    + apply Qlt_bool_true in E2. auto.
    + apply Qlt_bool_false in E2. auto.
  - apply Qlt_bool_false in E1. destruct (Qlt_bool s 0) eqn:E2.
    + apply Qlt_bool_true in E2. auto 10.
    + apply Qlt_bool_false in E2. auto 10.
Qed.

Ltac rewrap_case c s E :=
  destruct (rewrap_cases c s)
    as [(E & ? & ?)|[(E & ? & ?)|[(E & ? & ?)|(E & ? & ?)]]].

Lemma rewrap_idem c s : rewrap (rewrap c s) s == rewrap c s.
Proof.
  rewrap_case c s E; rewrite E; rewrap_case (rewrap c s) s E';
    rewrite E in *; rewrite ?E'; lra.
Qed.

Lemma rewrap_mono c c' s : c <= c' -> rewrap c s <= rewrap c' s.
Proof.
  intros Hle. rewrap_case c s E; rewrap_case c' s E'; rewrite E, E'; lra.
Qed.

Lemma rewrap_in_range c s : 0 <= c <= s -> rewrap c s == c.
Proof. intros Hc. rewrap_case c s E; rewrite E; lra. Qed.

Lemma rewrap_low c s : 0 <= s -> c <= 0 -> rewrap c s == 0.
Proof. intros Hs Hc. rewrap_case c s E; rewrite E; lra. Qed.

Lemma rewrap_high c s : 0 <= s -> s <= c -> rewrap c s == s.
Proof. intros Hs Hc. rewrap_case c s E; rewrite E; lra. Qed.

(** [rewrap] is idempotent and monotone in the coordinate; it returns the
    coordinate inside [[0, size]], 0 below and the size above. *)
Theorem rewrap_clamp_laws :
  (forall c s, rewrap (rewrap c s) s == rewrap c s) /\
  (forall c c' s, c <= c' -> rewrap c s <= rewrap c' s) /\
  (forall c s, 0 <= c <= s -> rewrap c s == c) /\
  (forall c s, 0 <= s -> c <= 0 -> rewrap c s == 0) /\
  (forall c s, 0 <= s -> s <= c -> rewrap c s == s).
Proof.
  split; [exact rewrap_idem|]. split; [exact rewrap_mono|].
  split; [exact rewrap_in_range|]. split; [exact rewrap_low | exact rewrap_high].
Qed.

Lemma rewrap_clamp_laws_witness :
  rewrap 5 10 <= rewrap 7 10 /\ rewrap 5 10 == 5 /\ rewrap (-3) 10 == 0 /\
  rewrap 12 10 == 10.
Proof.
  destruct rewrap_clamp_laws as (_ & Hmono & Hin & Hlow & Hhigh).
  split; [|split; [|split]].
  - apply Hmono. apply Qle_bool_imp_le. reflexivity.
  - apply Hin. split; apply Qle_bool_imp_le; reflexivity.
  - apply Hlow; apply Qle_bool_imp_le; reflexivity.
  - apply Hhigh; apply Qle_bool_imp_le; reflexivity.
Defined.

(** ** The action history on a tensor of zeros *)

Lemma count_nonzero_cons row rows :
  count_nonzero (row :: rows) = (count_nonzero [row] + count_nonzero rows)%nat.
Proof. apply (count_nonzero_app [row] rows). Qed.

Lemma count_nonzero_one_hot action :
  (0 <= action < 9)%Z -> count_nonzero [one_hot action] = 1%nat.
Proof.
  intros Ha.
  assert (Hc : (action = 0 \/ action = 1 \/ action = 2 \/ action = 3 \/ action = 4 \/
                action = 5 \/ action = 6 \/ action = 7 \/ action = 8)%Z) by lia.
  repeat (destruct Hc as [-> | Hc]; [reflexivity|]). subst. reflexivity.
Qed.

Lemma count_nonzero_zero_rows n : count_nonzero (zero_rows n) = 0%nat.
Proof.
  induction n as [|n IH]; [reflexivity|].
  unfold zero_rows in *. cbn [replicate]. rewrite count_nonzero_cons, IH. reflexivity.
Qed.

Lemma count_nonzero_appended actions n :
  Forall (fun action => (0 <= action < 9)%Z) actions ->
  count_nonzero (map one_hot actions ++ zero_rows n) = length actions.
Proof.
  intros Hact. rewrite count_nonzero_app, count_nonzero_zero_rows, Nat.add_0_r.
  induction Hact as [|a l Ha Hl IH]; [reflexivity|].
  cbn [map length]. rewrite count_nonzero_cons, IH, count_nonzero_one_hot by exact Ha.
  reflexivity.
Qed.

(** One call in append mode. *)
Lemma update_history_append action j rows row self :
  actions_history self = HTensor rows ->
  norm_index 9 action = Ok j ->
  (count_nonzero rows < 9)%nat ->
  rows !! count_nonzero rows = Some row -> length row = 9%nat ->
  update_history action self =
    (Ok (HTensor (<[count_nonzero rows := <[j := 1]> row]> rows)),
     set_actions_history (HTensor (<[count_nonzero rows := <[j := 1]> row]> rows)) self).
Proof.
  intros Hh Hj Hcount Hrow Hlen.
  apply Nat.ltb_lt in Hcount.
  destruct self. cbn in Hh. subst.
  unfold update_history, mbind, M_bind, lift, get_self, assign, mret, M_ret.
  unfold vec_setitem. cbn [length torch_zeros replicate]. rewrite Hj.
  cbn [result_bind actions_history nonzero_len]. rewrite Hcount.
  cbn [actions_history hist_setitem2]. rewrite Hrow, Hlen, Hj. reflexivity.
Qed.

Lemma norm_index_ok action :
  (0 <= action < 9)%Z -> norm_index 9 action = Ok (Z.to_nat action).
Proof.
  intros Ha. unfold norm_index.
  replace ((0 <=? action)%Z && (action <? Z.of_nat 9)%Z) with true; [reflexivity|].
  symmetry. apply andb_true_iff. split; [apply Z.leb_le | apply Z.ltb_lt]; lia.
Qed.

Lemma push_all_from_zeros (actions : list Z) (n : nat) self :
  Forall (fun action => (0 <= action < 9)%Z) actions ->
  (length actions <= 9)%nat -> (length actions <= n)%nat ->
  actions_history self = HTensor (zero_rows n) ->
  push_all actions self =
    (Ok tt, set_actions_history
              (HTensor (map one_hot actions ++ zero_rows (n - length actions))) self).
Proof.
  intros Hact. revert n. induction actions as [|action actions IH] using rev_ind;
    intros n Hlen9 Hlenn Hh.
  - cbn [map app length]. rewrite Nat.sub_0_r, <- Hh, set_actions_history_same.
    reflexivity.
  - apply Forall_app in Hact as [Hact Ha]. apply Forall_cons in Ha as [Ha _].
    rewrite length_app in Hlen9, Hlenn. cbn [length] in Hlen9, Hlenn.
    unfold push_all in *. rewrite for_each_app, (IH Hact n) by (lia || exact Hh).
    cbn [for_each]. rewrite !bind_run.
    set (rows := map one_hot actions ++ zero_rows (n - length actions)).
    assert (Hc : count_nonzero rows = length actions)
      by (apply count_nonzero_appended; exact Hact).
    assert (Hrow : rows !! count_nonzero rows = Some (torch_zeros 9)).
    { rewrite Hc. unfold rows. rewrite lookup_app_r by (rewrite length_map; lia).
      rewrite length_map, Nat.sub_diag. unfold zero_rows.
      apply lookup_replicate. split; [reflexivity | lia]. }
    assert (Hnew : <[count_nonzero rows := <[Z.to_nat action := 1]> (torch_zeros 9)]> rows =
                   map one_hot (actions ++ [action])
                   ++ zero_rows (n - length (actions ++ [action]))).
    { rewrite Hc. unfold rows.
      rewrite insert_app_r_alt by (rewrite length_map; lia).
      rewrite length_map, Nat.sub_diag, map_app, <- app_assoc. f_equal.
      rewrite length_app. cbn [length map app].
      replace (n - length actions)%nat with (S (n - (length actions + 1)))%nat by lia.
      reflexivity. }
    rewrite (update_history_append action (Z.to_nat action) rows (torch_zeros 9));
      [ | destruct self; reflexivity | apply norm_index_ok; exact Ha | lia
        | exact Hrow | reflexivity ].
    rewrite Hnew. destruct self; reflexivity.
Qed.

(** On a tensor of rows of zeros the first nine calls of [update_history]
    append: the call number [k] (from 0) sets the entry of its action in row
    [k], so that after the calls the rows hold the one-hot rows of the actions
    in the order of the calls, above the rows of zeros. *)
Theorem update_history_appends_from_zeros (actions : list Z) (n : nat) self :
  Forall (fun action => (0 <= action < 9)%Z) actions ->
  (length actions <= 9)%nat -> (length actions <= n)%nat ->
  actions_history self = HTensor (zero_rows n) ->
  push_all actions self =
    (Ok tt, set_actions_history
              (HTensor (map one_hot actions ++ zero_rows (n - length actions))) self).
Proof. apply push_all_from_zeros. Qed.

Lemma update_history_appends_from_zeros_witness :
  push_all [3; 5]%Z env_zero =
    (Ok tt, set_actions_history
              (HTensor (map one_hot [3; 5]%Z ++ zero_rows (20 - length [3; 5]%Z)))
              env_zero).
Proof.
  apply (update_history_appends_from_zeros [3; 5]%Z 20 env_zero).
  - repeat constructor; lia.
  - simpl; lia.
  - simpl; lia.
  - reflexivity.
Defined.

(** After nine appended actions the tenth call shifts: its row goes to slot
    0 and the first eight rows move down by one, so that the ninth action,
    the most recent of the nine, is the one that is lost, and the oldest
    stays in slot 1. *)
Theorem update_history_tenth_push_evicts_ninth (actions : list Z) (last : Z) (n : nat) self :
  Forall (fun action => (0 <= action < 9)%Z) actions -> length actions = 9%nat ->
  (0 <= last < 9)%Z -> (9 <= n)%nat ->
  actions_history self = HTensor (zero_rows n) ->
  push_all (actions ++ [last]) self =
    (Ok tt, set_actions_history
              (HTensor (one_hot last :: map one_hot (take 8 actions) ++ zero_rows (n - 9)))
              self).
Proof.
  intros Hact Hlen Hlast Hn Hh.
  unfold push_all. rewrite for_each_app.
  pose proof (push_all_from_zeros actions n self Hact) as Happ.
  unfold push_all in Happ. rewrite Happ by (lia || exact Hh). clear Happ.
  rewrite Hlen. cbn [for_each]. rewrite !bind_run.
  set (rows := map one_hot actions ++ zero_rows (n - 9)).
  assert (Hmap : length (map one_hot actions) = 9%nat) by (rewrite length_map; exact Hlen).
  rewrite (update_history_shift last (one_hot last) rows).
  - unfold mret, M_ret, shift_push, rows.
    rewrite take_app_le by lia. rewrite firstn_map.
    rewrite drop_app_length' by (symmetry; exact Hmap).
    destruct self; reflexivity.
  - destruct self; reflexivity.
  - apply one_hot_ok; exact Hlast.
  - unfold rows. rewrite length_app, Hmap. lia.
  - unfold rows. apply Forall_app. split.
    + apply Forall_map, Forall_forall. intros a _. unfold one_hot.
      rewrite length_insert. reflexivity.
    + apply Forall_replicate. reflexivity.
  - unfold rows. rewrite count_nonzero_appended by exact Hact. lia.
Qed.

Lemma update_history_tenth_push_evicts_ninth_witness :
  push_all ([0; 1; 2; 3; 4; 5; 6; 7; 8] ++ [3])%Z env_zero =
    (Ok tt, set_actions_history
              (HTensor (one_hot 3 :: map one_hot (take 8 [0; 1; 2; 3; 4; 5; 6; 7; 8]%Z)
                        ++ zero_rows (20 - 9)))
              env_zero).
Proof.
  apply (update_history_tenth_push_evicts_ninth [0; 1; 2; 3; 4; 5; 6; 7; 8]%Z 3 20 env_zero).
  - repeat constructor; lia.
  - reflexivity.
  - lia.
  - lia.
  - reflexivity.
Defined.

Lemma update_history_always_shifts_witness :
  push_all [3; 5]%Z (env_with 500 full_box full_box) =
    (Ok tt, set_actions_history (HTensor (pushed_rows [3; 5]%Z))
              (env_with 500 full_box full_box)).
Proof.
  apply (update_history_always_shifts [3; 5]%Z (env_with 500 full_box full_box)).
  - repeat constructor; lia.
  - reflexivity.
Defined.

(** ** The estimators, further *)

Module ModelExtraFacts.
Import Models ModelExtras.

Section EstimatorExtraFacts.
Context `{Torch}.

Lemma normal_like_length mu sd (t : vec) g :
  length (fst (normal_like mu sd t g)) = length t.
Proof.
  revert g. induction t as [|x t IH]; intros g; cbn [normal_like]; [reflexivity|].
  destruct (normal mu sd g) as [z g1]. specialize (IH g1).
  destruct (normal_like mu sd t g1) as [zs g2]. cbn in *. congruence.
Qed.

Lemma normal_like_rows_shape mu sd (t : list vec) g :
  Forall2 (fun r row => length r = length row) (fst (normal_like_rows mu sd t g)) t.
Proof.
  revert g. induction t as [|row t IH]; intros g; cbn [normal_like_rows]; [constructor|].
  pose proof (normal_like_length mu sd row g) as Hl.
  destruct (normal_like mu sd row g) as [r g1]. specialize (IH g1).
  destruct (normal_like_rows mu sd t g1) as [rs g2]. cbn in *. constructor; assumption.
Qed.

Lemma zero_scale_vec (b noise : vec) :
  length noise = length b ->
  Qvec_eq (zip_with Qplus b (zip_with Qmult (map (fun _ => 0) b) noise)) b.
Proof.
  unfold Qvec_eq. revert noise. induction b as [|x b IH]; intros [|z noise] Hl;
    try discriminate Hl; cbn; constructor; [ring | apply IH; cbn in Hl; lia].
Qed.

Lemma zero_scale_rows (W noise : list vec) :
  Forall2 (fun r row => length r = length row) noise W ->
  Forall2 Qvec_eq
    (zip_with (zip_with Qplus) W
       (zip_with (zip_with Qmult) (map (map (fun _ => 0)) W) noise)) W.
Proof.
  intros Hs. induction Hs as [|r row noise W Hl Hs IH]; [constructor|].
  cbn. constructor; [apply zero_scale_vec; exact Hl | exact IH].
Qed.

Lemma dot_Qeq (x r r' : vec) : Qvec_eq r' r -> dot x r' == dot x r.
Proof.
  unfold dot, Qvec_eq. intros Hr. revert x.
  induction Hr as [|a' a r' r Ha Hr IH]; intros [|xi x]; cbn; try reflexivity.
  fold (vsum (zip_with Qmult x r')) (vsum (zip_with Qmult x r)).
  rewrite (IH x), Ha. reflexivity.
Qed.

Lemma F_linear_Qeq (x : vec) (W W' : list vec) (b b' : vec) :
  Forall2 Qvec_eq W' W -> Qvec_eq b' b -> Qvec_eq (F_linear x W' b') (F_linear x W b).
Proof.
  unfold F_linear, Qvec_eq at 2 3. intros HW. revert b b'.
  induction HW as [|r' r W' W Hr HW IH]; intros b b' Hb; [constructor|].
  destruct Hb as [|bi' bi b' b Hbi Hb]; cbn; constructor.
  - rewrite (dot_Qeq x r r' Hr), Hbi. reflexivity.
  - apply IH. exact Hb.
Qed.

(** In training mode the noise reaches the output through the scale
    parameters only: with [w_sigma] and [b_sigma] at zero the layer returns
    the entries of the linear map of the means, whatever the generator draws
    and whatever [sigma] is. *)
Theorem noisy_training_with_zero_scales (W : list vec) (b : vec) (x : vec)
    (sigma : Q) (g : rng) :
  Qvec_eq
    (fst (NoisyLinear_forward
            (mkNoisyLinear W (map (map (fun _ => 0)) W) b (map (fun _ => 0) b) true)
            x sigma g))
    (F_linear x W b).
Proof.
  unfold NoisyLinear_forward. cbn [training w_mu w_sigma b_mu b_sigma].
  pose proof (normal_like_rows_shape 0 sigma W g) as Hw.
  destruct (normal_like_rows 0 sigma W g) as [w_noise g1].
  pose proof (normal_like_length 0 sigma b g1) as Hb.
  destruct (normal_like 0 sigma b g1) as [b_noise g2]. cbn [fst] in *.
  apply F_linear_Qeq; [apply zero_scale_rows; exact Hw | apply zero_scale_vec; exact Hb].
Qed.

End EstimatorExtraFacts.

End ModelExtraFacts.
